(** * Hospital management dashboard: audit trail, access control and
      mask_nameisation

    Shallow embedding of [app.py], the Streamlit script of the hospital
    records demo.  Every execution of the script is one run of [main] over
    the persisted database, the session state and the widget values of that
    run.  The modules [database], [auth] and [crypto_utils] that [app.py]
    imports are modelled from the specification, each definition saying so. *)

From Stdlib Require Import String Ascii List ZArith NArith Bool Lia Sorted.
From Stdlib Require Import DecimalString DecimalZ.
Import ListNotations.
Local Open Scope string_scope.
Local Open Scope Z_scope.

Set Implicit Arguments.

(** ** Python values *)

(** [str(n)] of a Python integer: decimal digits, with a leading minus sign
    for negative numbers. *)
Definition str (n : Z) : string := NilEmpty.string_of_int (Z.to_int n).

(** Truthiness of a Python string: only the empty string is falsy. *)
Definition truthy (s : string) : bool :=
  match s with
  | EmptyString => false
  | String _ _ => true
  end.

(** Membership test [x in [a, b, ...]] on strings. *)
Fixpoint str_in (x : string) (l : list string) : bool :=
  match l with
  | [] => false
  | y :: l' => String.eqb x y || str_in x l'
  end.

(** ** Data model *)

Module User.
Record t := mk { username : string; role : string }.
End User.

Module Patient.
Record t := mk {
  patient_id : Z;
  name : string;
  contact : string;
  diagnosis : string;
  anonymized_name : string;
  anonymized_contact : string;
  encrypted_name : string;
  encrypted_contact : string;
  date_added : Z
}.
End Patient.

Module Log.
Record t := mk {
  username : string;
  role : string;
  action : string;
  detail : string;
  timestamp : Z
}.
End Log.

(** The persisted store: the patient table and the audit table, both in
    insertion order. *)
Record Database := mkDatabase {
  patients : list Patient.t;
  logs : list Log.t
}.

(** [st.session_state]: the authenticated user (or [None]), the page that is
    routed to, and the time the session started. *)
Record Session := mkSession {
  user : option User.t;
  page : string;
  start_time : Z
}.

(** The session state the script sets up on its first run. *)
Definition new_session (time : Z) : Session := mkSession None "Login" time.

(** ** Characters of a string

    Python strings are sequences of characters; slicing and repetition are
    written on the list of characters. *)
Definition chars (s : string) : list ascii := list_ascii_of_string s.
Definition of_chars (l : list ascii) : string := string_of_list_ascii l.

(** [c * n] for a one-character string [c]. *)
Definition mask_string (c : ascii) (n : nat) : string := of_chars (repeat c n).

(** [s[-k:]] for [0 < k <= len(s)], the last [k] characters. *)
Definition suffix (k : nat) (s : string) : string :=
  of_chars (skipn (String.length s - k) (chars s)).

(** ** crypto_utils (field masker and cipher provider) *)

(** The handle [get_cipher()] returns.  [encrypt x] stands for
    [cipher.encrypt(x.encode()).decode()]; [decrypt] is [None] where the
    cipher rejects its argument. *)
Module Cipher.
Record t := mk {
  encrypt : string -> string;
  decrypt : string -> option string
}.
End Cipher.

(** What [app.py] takes from modules that are missing, as parameters: the
    constants of the field masker (the fixed prefix of pseudonyms, the
    number of trailing characters of a contact that stay readable, the mask
    character), the process-wide cipher of [get_cipher()], and
    [authenticate_user] of [auth.py], which gives the user of a username
    and password "or nothing". *)
Record Env := mkEnv {
  name_prefix : string;
  suffix_len : nat;
  mask_char : ascii;
  get_cipher : Cipher.t;
  authenticate_user : string -> string -> option User.t
}.

(** ** database (patient repository and audit log) *)

Module DB.

(** Modelled from the spec: [get_all_patients] of [database.py] is missing.
    "getAll() -> ordered sequence of Patient (order = insertion order or by
    id)". *)
Definition get_all_patients (d : Database) : list Patient.t := patients d.

(** Modelled from the spec: [get_all_logs] of [database.py] is missing.
    "getAll() -> ordered sequence of AuditLogEntry ordered by
    insertion/timestamp". *)
Definition get_all_logs (d : Database) : list Log.t := logs d.

(** Modelled from the spec: the id assignment of [add_patient] in
    [database.py] is missing.  "assigns a new unique id": one more than the
    largest id of the table, as an integer primary key does. *)
Definition next_patient_id (ps : list Patient.t) : Z :=
  1 + fold_right Z.max 0 (map Patient.patient_id ps).

(** Modelled from the spec: [add_patient] of [database.py] is missing.
    It takes the seven values [app.py] passes, stores them under a new id
    with the insertion time, and returns that id. *)
Definition add_patient (name contact diagnosis anon_name anon_contact
                        enc_name enc_contact : string) (time : Z)
                       (d : Database) : Z * Database :=
  let pid := next_patient_id (patients d) in
  (pid,
   mkDatabase
     (patients d ++
      [Patient.mk pid name contact diagnosis anon_name anon_contact
                  enc_name enc_contact time])
     (logs d)).

(** Modelled from the spec: the lookup of [update_patient] in [database.py]
    is missing.  "an existing id". *)
Definition has_patient (pid : Z) (ps : list Patient.t) : bool :=
  existsb (fun p => Patient.patient_id p =? pid) ps.

(** Modelled from the spec: the row update of [update_patient] in
    [database.py] is missing.  "overwrites raw and anonymized fields"; the
    id, the encrypted fields and the date stay. *)
Definition set_raw_and_anonymized (name contact diagnosis anon_name
                                   anon_contact : string)
                                  (p : Patient.t) : Patient.t :=
  Patient.mk (Patient.patient_id p) name contact diagnosis
             anon_name anon_contact
             (Patient.encrypted_name p) (Patient.encrypted_contact p)
             (Patient.date_added p).

(** Modelled from the spec: [update_patient] of [database.py] is missing.
    "overwrites raw and anonymized fields for an existing id; fails with
    NotFoundError if id is absent" ([None] here). *)
Definition update_patient (pid : Z) (name contact diagnosis anon_name
                           anon_contact : string)
                          (d : Database) : option Database :=
  if has_patient pid (patients d)
  then Some (mkDatabase
               (map (fun p =>
                       if Patient.patient_id p =? pid
                       then set_raw_and_anonymized name contact diagnosis
                                                   anon_name anon_contact p
                       else p)
                    (patients d))
               (logs d))
  else None.

Section Anonymize.
Variable mask_name : Z -> string.
Variable mask_contact : string -> string.
Variable encrypt : string -> string.

(** Modelled from the spec: the row update of [anonymize_all_patients] in
    [database.py] is missing.  The derived fields are recomputed "from
    id/contact" and "from raw name/contact via the given cipher". *)
Definition anonymize (p : Patient.t) : Patient.t :=
  Patient.mk (Patient.patient_id p)
             (Patient.name p) (Patient.contact p) (Patient.diagnosis p)
             (mask_name (Patient.patient_id p))
             (mask_contact (Patient.contact p))
             (encrypt (Patient.name p))
             (encrypt (Patient.contact p))
             (Patient.date_added p).

(** Modelled from the spec: [anonymize_all_patients] of [database.py] is
    missing.  "for every existing patient, recompute
    anonymized_name/anonymized_contact (from id/contact) and
    encrypted_name/encrypted_contact (from raw name/contact via the
    given cipher), and persist in place". *)
Definition anonymize_all_patients (d : Database) : Database :=
  mkDatabase (map anonymize (patients d)) (logs d).
End Anonymize.

(** Modelled from the spec: the audit insert of [database.py] is missing.
    "appends with a server-assigned timestamp". *)
Definition add_log (username role action detail : string) (time : Z)
                   (d : Database) : Database :=
  mkDatabase (patients d)
             (logs d ++ [Log.mk username role action detail time]).

End DB.

(** ** One run of the script

    A run reads and writes the database, the session state and the clock,
    prints notices, and ends normally, with [st.rerun()], or with an
    exception. *)

(** What [st.success], [st.error], [st.warning], [st.info] and [st.write]
    put on the page (pictographs left out).  Titles, captions, dividers,
    metrics, tables and the CSV download belong to the rendering layer and
    are not modelled. *)
Inductive Notice :=
| Success (msg : string)
| Error (msg : string)
| Warning (msg : string)
| Info (msg : string)
| Write (msg : string).

Inductive PyError :=
| NotFoundError      (* update of an absent patient id *)
| DecryptionError    (* the cipher rejects a ciphertext *)
| StopIteration      (* [next] over an exhausted generator *)
| TypeError.         (* subscript of [None] *)

Inductive Outcome (A : Type) :=
| Done (a : A)
| Rerun
| Raised (e : PyError).
Arguments Rerun {A}.
Arguments Raised {A} e.

(** [journal] lists every database state that was committed, oldest first:
    what an observer of the store could have read at some point. *)
Record World := mkWorld {
  db : Database;
  journal : list Database;
  session : Session;
  now : Z;
  screen : list Notice
}.

Definition Script (A : Type) : Type := World -> Outcome A * World.

Definition ret {A} (a : A) : Script A := fun w => (Done a, w).

Definition bind {A B} (c : Script A) (k : A -> Script B) : Script B :=
  fun w =>
    match c w with
    | (Done a, w') => k a w'
    | (Rerun, w') => (Rerun, w')
    | (Raised e, w') => (Raised e, w')
    end.

Declare Scope script_scope.
Delimit Scope script_scope with script.
Notation "x <- c ;; k" := (bind c (fun x => k))
  (at level 61, c at next level, right associativity) : script_scope.
Notation "c ;; k" := (bind c (fun _ => k))
  (at level 61, right associativity) : script_scope.
Local Open Scope script_scope.

Definition raise {A} (e : PyError) : Script A := fun w => (Raised e, w).

(** [st.rerun()] stops the run at once; the script is then run again. *)
Definition st_rerun {A} : Script A := fun w => (Rerun, w).

Definition notify (n : Notice) : Script unit :=
  fun w => (Done tt, mkWorld (db w) (journal w) (session w) (now w)
                             (screen w ++ [n])).

Definition get_session : Script Session := fun w => (Done (session w), w).

Definition put_session (s : Session) : Script unit :=
  fun w => (Done tt, mkWorld (db w) (journal w) s (now w) (screen w)).

Definition set_user (u : option User.t) : Script unit :=
  s <- get_session;; put_session (mkSession u (page s) (start_time s)).

Definition set_page (p : string) : Script unit :=
  s <- get_session;; put_session (mkSession (user s) p (start_time s)).

(** [st.session_state['user']] followed by a subscript: fails on [None]. *)
Definition current_user : Script User.t :=
  s <- get_session;;
  match user s with
  | Some u => ret u
  | None => raise TypeError
  end.

Definition clock : Script Z := fun w => (Done (now w), w).

Definition query {A} (f : Database -> A) : Script A :=
  fun w => (Done (f (db w)), w).

Definition commit (d : Database) : Script unit :=
  fun w => (Done tt, mkWorld d (journal w ++ [d]) (session w) (now w)
                             (screen w)).

(** The calls into [database], each write committed at once. *)
Definition get_all_patients : Script (list Patient.t) :=
  query DB.get_all_patients.

Definition get_all_logs : Script (list Log.t) := query DB.get_all_logs.

Definition add_patient (name contact diagnosis anon_name anon_contact
                        enc_name enc_contact : string) : Script Z :=
  t <- clock;;
  r <- query (DB.add_patient name contact diagnosis anon_name anon_contact
                             enc_name enc_contact t);;
  commit (snd r);;
  ret (fst r).

Definition update_patient (pid : Z) (name contact diagnosis anon_name
                           anon_contact : string) : Script unit :=
  r <- query (DB.update_patient pid name contact diagnosis anon_name
                                anon_contact);;
  match r with
  | Some d => commit d
  | None => raise NotFoundError
  end.

(** ** auth *)

(** Modelled from the spec: [check_role] of [auth.py] is missing.
    "check(role, requiredRoles: set) -> bool.  Pure predicate"; a session
    without a user has no role. *)
Definition check_role (s : Session) (required : list string) : bool :=
  match user s with
  | Some u => str_in (User.role u) required
  | None => false
  end.

(** Modelled from the spec: [log_user_action] of [auth.py] is missing.
    "append(username, role, action, detail) -> void: appends with a
    server-assigned timestamp", the actor being the session's user; nothing
    is written for a session without a user. *)
Definition log_user_action (action detail : string) : Script unit :=
  s <- get_session;;
  match user s with
  | Some u =>
      t <- clock;;
      d <- query (DB.add_log (User.username u) (User.role u) action detail t);;
      commit d
  | None => ret tt
  end.

(** ** Widgets *)

Inductive ViewMode := Anonymized | RawData.

(** The widget values of one run.  A button or a form submit is [true] in
    the run its click triggers; a select box carries the index of the chosen
    option; a text input of the update form is [None] while it still shows
    the stored value. *)
Record Inputs := mkInputs {
  login_username : string;
  login_password : string;
  login_submit : bool;
  nav_click : option string;
  logout_click : bool;
  view_mode : ViewMode;
  add_name : string;
  add_contact : string;
  add_diagnosis : string;
  add_submit : bool;
  upd_selected : nat;
  upd_name : option string;
  upd_contact : option string;
  upd_diagnosis : option string;
  upd_submit : bool;
  apply_click : bool;
  dec_selected : nat;
  decrypt_click : bool
}.

(** [st.selectbox(label, options)] over a non-empty list of ids. *)
Definition selectbox (options : list Z) (index : nat) : Z :=
  nth index options (hd 0 options).

(** [st.text_input(label, value=stored)]. *)
Definition text_input (typed : option string) (stored : string) : string :=
  match typed with
  | Some s => s
  | None => stored
  end.

(** [next(p for p in patients if p['patient_id'] == selected_id)]. *)
Definition next_with_id (selected_id : Z) (ps : list Patient.t)
  : Script Patient.t :=
  match find (fun p => Patient.patient_id p =? selected_id) ps with
  | Some p => ret p
  | None => raise StopIteration
  end.

Definition is_empty {A} (l : list A) : bool :=
  match l with
  | [] => true
  | _ :: _ => false
  end.

(** ** The application *)

Definition newline : string := String "010"%char EmptyString.

(** The text under the login form, as the triple-quoted literal of the
    script has it: it starts and ends with a line break and keeps the
    indentation of the source. *)
Definition demo_credentials_info : string :=
  String.concat newline
    ["";
     "        **Demo Credentials:**";
     "        - Admin: `admin` / `admin123`";
     "        - Doctor: `dr_bob` / `doc123`";
     "        - Receptionist: `alice_recep` / `rec123`";
     "        "].

Section App.

Variable env : Env.

(** Modelled from the spec: [mask_name] of [crypto_utils.py] is missing.
    "deterministic pseudonym derived solely from the numeric identifier
    (e.g. a fixed prefix plus the identifier)". *)
Definition mask_name (pid : Z) : string := name_prefix env ++ str pid.

(** Modelled from the spec: [mask_contact] of [crypto_utils.py] is missing.
    "preserves a fixed-length suffix of the original contact string and
    replaces the remaining leading characters with a fixed mask character;
    fails gracefully (returns fully masked output) on inputs shorter than
    the preserved suffix length". *)
Definition mask_contact (c : string) : string :=
  if (suffix_len env <=? String.length c)%nat
  then mask_string (mask_char env) (String.length c - suffix_len env)
       ++ suffix (suffix_len env) c
  else mask_string (mask_char env) (String.length c).

(** Modelled from the spec: [decrypt_field] of [crypto_utils.py] is
    missing.  "Decryption with the wrong key or corrupted ciphertext fails
    with a DecryptionError rather than returning garbage silently". *)
Definition decrypt_field (cipher : Cipher.t) (ciphertext : string)
  : Script string :=
  match Cipher.decrypt cipher ciphertext with
  | Some plain => ret plain
  | None => raise DecryptionError
  end.

Definition anonymize_all_patients (cipher : Cipher.t) : Script unit :=
  d <- query (DB.anonymize_all_patients mask_name mask_contact
                                        (Cipher.encrypt cipher));;
  commit d.

(** *** Helper functions *)

Definition logout : Script unit :=
  s <- get_session;;
  match user s with
  | Some _ => log_user_action "LOGOUT" "User logged out"
  | None => ret tt
  end;;
  set_user None;;
  set_page "Login";;
  st_rerun.

(** *** Login page *)

Definition login_page (i : Inputs) : Script unit :=
  (if login_submit i then
     if truthy (login_username i) && truthy (login_password i) then
       match authenticate_user env (login_username i) (login_password i) with
       | Some u =>
           set_user (Some u);;
           set_page "Dashboard";;
           log_user_action "LOGIN"
             ("User " ++ login_username i ++ " logged in");;
           notify (Success ("Welcome, " ++ User.username u ++ " ("
                            ++ User.role u ++ ")"));;
           st_rerun
       | None => notify (Error "Invalid username or password")
       end
     else notify (Warning "Please enter both username and password")
   else ret tt);;
  notify (Info demo_credentials_info).

(** *** Dashboard page *)

Definition dashboard_page : Script unit :=
  u <- current_user;;
  (if User.role u =? "admin" then
     notify (Success "**Admin Access**: Full system control, raw data access, audit logs")
   else if User.role u =? "doctor" then
     notify (Info "**Doctor Access**: View anonymized patient data only")
   else
     notify (Warning "**Receptionist Access**: Add/edit records, no sensitive data view"))%string;;
  log_user_action "VIEW_DASHBOARD" "Accessed dashboard".

(** *** Patients page *)

Definition view_patients_tab (i : Inputs) (u : User.t) : Script unit :=
  patients <- get_all_patients;;
  if is_empty patients then notify (Info "No patient records found")
  else if (User.role u =? "admin")%string then
    match view_mode i with
    | RawData =>
        notify (Warning "Viewing raw patient data - ensure GDPR compliance");;
        log_user_action "VIEW_RAW_DATA" "Admin viewed raw patient data"
    | Anonymized => ret tt
    end
  else if (User.role u =? "doctor")%string then
    notify (Info "Viewing anonymized data (GDPR compliant)");;
    log_user_action "VIEW_ANONYMIZED_DATA" "Doctor viewed anonymized data"
  else
    notify (Warning "Receptionists cannot view patient records (confidentiality)").

Definition add_patient_tab (i : Inputs) (u : User.t) : Script unit :=
  if str_in (User.role u) ["admin"; "receptionist"] then
    if add_submit i then
      let name := add_name i in
      let contact := add_contact i in
      let diagnosis := add_diagnosis i in
      if truthy name && truthy contact && truthy diagnosis then
        let cipher := get_cipher env in
        let anon_name := mask_name 999 in
        let anon_contact := mask_contact contact in
        let enc_name := Cipher.encrypt cipher name in
        let enc_contact := Cipher.encrypt cipher contact in
        pid <- add_patient name contact diagnosis anon_name anon_contact
                           enc_name enc_contact;;
        update_patient pid name contact diagnosis (mask_name pid)
                       anon_contact;;
        log_user_action "ADD_PATIENT" ("Added patient ID " ++ str pid);;
        notify (Success ("Patient added successfully (ID: " ++ str pid
                         ++ ")"));;
        st_rerun
      else notify (Error "All fields are required")
    else ret tt
  else notify (Error "Doctors cannot add patients (integrity control)").

Definition update_patient_tab (i : Inputs) (u : User.t) : Script unit :=
  if str_in (User.role u) ["admin"; "receptionist"] then
    patients <- get_all_patients;;
    if is_empty patients then notify (Info "No patients to update")
    else
      let patient_ids := map Patient.patient_id patients in
      let selected_id := selectbox patient_ids (upd_selected i) in
      selected_patient <- next_with_id selected_id patients;;
      let name := text_input (upd_name i) (Patient.name selected_patient) in
      let contact :=
        text_input (upd_contact i) (Patient.contact selected_patient) in
      let diagnosis :=
        text_input (upd_diagnosis i) (Patient.diagnosis selected_patient) in
      if upd_submit i then
        let anon_name := mask_name selected_id in
        let anon_contact := mask_contact contact in
        update_patient selected_id name contact diagnosis anon_name
                       anon_contact;;
        log_user_action "UPDATE_PATIENT"
          ("Updated patient ID " ++ str selected_id);;
        notify (Success "Patient updated successfully");;
        st_rerun
      else ret tt
  else notify (Error "Doctors cannot update patients (integrity control)").

Definition patients_page (i : Inputs) : Script unit :=
  u <- current_user;;
  view_patients_tab i u;;
  add_patient_tab i u;;
  update_patient_tab i u.

(** *** Anonymization page *)

Definition anonymization_page (i : Inputs) : Script unit :=
  s <- get_session;;
  if negb (check_role s ["admin"]) then
    notify (Error "Access Denied: Admin only")
  else
    notify (Info "**GDPR Article 4(5)**: Pseudonymisation with separate key management");;
    (if apply_click i then
       anonymize_all_patients (get_cipher env);;
       log_user_action "ANONYMIZE_ALL"
         "Batch anonymization applied with encryption";;
       notify (Success "All patients anonymized and encrypted");;
       st_rerun
     else ret tt);;
    patients <- get_all_patients;;
    if is_empty patients then ret tt
    else
      let patient_ids := map Patient.patient_id patients in
      let selected_id := selectbox patient_ids (dec_selected i) in
      if decrypt_click i then
        patient <- next_with_id selected_id patients;;
        let cipher := get_cipher env in
        decrypted_name <-
          decrypt_field cipher (Patient.encrypted_name patient);;
        decrypted_contact <-
          decrypt_field cipher (Patient.encrypted_contact patient);;
        notify (Success "Decrypted Data:");;
        notify (Write ("**Name:** " ++ decrypted_name));;
        notify (Write ("**Contact:** " ++ decrypted_contact));;
        log_user_action "DECRYPT_DATA"
          ("Decrypted patient ID " ++ str selected_id)
      else ret tt.

(** *** Audit logs page *)

Definition audit_logs_page : Script unit :=
  s <- get_session;;
  if negb (check_role s ["admin"]) then
    notify (Error "Access Denied: Admin only")
  else
    notify (Info "**GDPR Article 5(2)**: Accountability through comprehensive logging");;
    logs <- get_all_logs;;
    if is_empty logs then notify (Info "No audit logs found")
    else log_user_action "VIEW_AUDIT_LOG" "Accessed audit logs".

(** *** Main navigation *)

Definition sidebar_pages (u : User.t) : list string :=
  ["Dashboard"; "Patients"] ++
  (if (User.role u =? "admin")%string
   then ["Anonymization"; "Audit Logs"] else []).

(** The loop over the navigation buttons: the clicked one sets the page
    and reruns. *)
Fixpoint nav_buttons (pages : list string) (clicked : option string)
  : Script unit :=
  match pages with
  | [] => ret tt
  | p :: rest =>
      if match clicked with
         | Some c => (c =? p)%string
         | None => false
         end
      then set_page p;; st_rerun
      else nav_buttons rest clicked
  end.

Definition route : Inputs -> Script unit := fun i =>
  s <- get_session;;
  let page := page s in
  if (page =? "Dashboard")%string then dashboard_page
  else if (page =? "Patients")%string then patients_page i
  else if (page =? "Anonymization")%string then anonymization_page i
  else if (page =? "Audit Logs")%string then audit_logs_page
  else ret tt.

Definition main (i : Inputs) : Script unit :=
  s <- get_session;;
  match user s with
  | None => login_page i
  | Some u =>
      nav_buttons (sidebar_pages u) (nav_click i);;
      (if logout_click i then logout else ret tt);;
      route i
  end.

End App.

Arguments mask_name env pid : simpl never.
Arguments mask_contact env c : simpl never.

(** ** Sequences of runs *)

(** Time passes between two runs of the script; the clock never goes back. *)
Definition advance (dt : N) (w : World) : World :=
  mkWorld (db w) (journal w) (session w) (now w + Z.of_N dt) (screen w).

Definition world_after {A} (c : Script A) (w : World) : World := snd (c w).
Definition outcome_of {A} (c : Script A) (w : World) : Outcome A := fst (c w).

(** The widget values once every button is released: what the run that
    follows [st.rerun()] sees. *)
Definition released (i : Inputs) : Inputs :=
  mkInputs (login_username i) (login_password i) false
           None false
           (view_mode i)
           (add_name i) (add_contact i) (add_diagnosis i) false
           (upd_selected i) (upd_name i) (upd_contact i) (upd_diagnosis i)
           false
           false (dec_selected i) false.

(** One user interaction: the run it triggers and, when that run asks for
    it, the rerun. *)
Definition interaction (env : Env) (i : Inputs) : Script unit :=
  fun w =>
    match main env i w with
    | (Rerun, w') => main env (released i) w'
    | r => r
    end.

(** Any sequence of runs, each after some time has passed. *)
Fixpoint runs (env : Env) (l : list (N * Inputs)) (w : World) : World :=
  match l with
  | [] => w
  | (dt, i) :: l' => runs env l' (world_after (main env i) (advance dt w))
  end.

(** The entries a computation adds to the audit table. *)
Definition appended (c : Script unit) (w : World) : list Log.t :=
  skipn (List.length (logs (db w))) (logs (db (world_after c w))).

(** The audit entry of action [action] by user [u] at time [t]. *)
Definition log_entry (u : User.t) (action detail : string) (t : Z) : Log.t :=
  Log.mk (User.username u) (User.role u) action detail t.

(** The world once a database write is committed. *)
Definition committed (d : Database) (w : World) : World :=
  mkWorld d (journal w ++ [d]) (session w) (now w) (screen w).

(** The world once notices are printed. *)
Definition printed (l : list Notice) (w : World) : World :=
  mkWorld (db w) (journal w) (session w) (now w) (screen w ++ l).

(** The action tags [app.py] writes to the audit table. *)
Definition audit_actions : list string :=
  ["LOGIN"; "LOGOUT"; "VIEW_DASHBOARD"; "VIEW_RAW_DATA";
   "VIEW_ANONYMIZED_DATA"; "ADD_PATIENT"; "UPDATE_PATIENT"; "ANONYMIZE_ALL";
   "DECRYPT_DATA"; "VIEW_AUDIT_LOG"].

(** [c] run on [w] writes exactly one audit entry, for [u] with tag
    [action] at the time of the run, and writes it last: the commits before
    it ([ds], the operation's own writes) leave the audit table as it
    was, and the entry is added to the state they ended in. *)
Definition logged_last (c : Script unit) (w : World) (u : User.t)
                       (action : string) : Prop :=
  exists (detail : string) (ds : list Database),
    journal (world_after c w)
    = (journal w ++ ds ++ [db (world_after c w)])%list
    /\ Forall (fun d => logs d = logs (db w)) ds
    /\ db (world_after c w)
       = DB.add_log (User.username u) (User.role u) action detail (now w)
                    (last ds (db w)).

(** [c] run on [w] writes nothing to the database. *)
Definition writes_nothing {A} (c : Script A) (w : World) : Prop :=
  db (world_after c w) = db w /\ journal (world_after c w) = journal w.

(** The record the add form stores for a new patient, given the pseudonym
    written to it. *)
Definition add_form_record (env : Env) (i : Inputs) (pid : Z)
                           (anon_name : string) (time : Z) : Patient.t :=
  Patient.mk pid (add_name i) (add_contact i) (add_diagnosis i)
             anon_name (mask_contact env (add_contact i))
             (Cipher.encrypt (get_cipher env) (add_name i))
             (Cipher.encrypt (get_cipher env) (add_contact i))
             time.

(** A record keeps its raw fields, and its derived fields are those
    anonymisation computes from them. *)
Definition anonymized_from (env : Env) (p p' : Patient.t) : Prop :=
  Patient.patient_id p' = Patient.patient_id p
  /\ Patient.name p' = Patient.name p
  /\ Patient.contact p' = Patient.contact p
  /\ Patient.diagnosis p' = Patient.diagnosis p
  /\ Patient.date_added p' = Patient.date_added p
  /\ Patient.anonymized_name p' = mask_name env (Patient.patient_id p)
  /\ Patient.anonymized_contact p' = mask_contact env (Patient.contact p)
  /\ Patient.encrypted_name p'
     = Cipher.encrypt (get_cipher env) (Patient.name p)
  /\ Patient.encrypted_contact p'
     = Cipher.encrypt (get_cipher env) (Patient.contact p).

(** From [w] to [w'] the clock stands still and the audit table only
    grows at its end, by entries stamped with the time of [w] whose action
    is one of the tags of [app.py]. *)
Definition audit_extended (w w' : World) : Prop :=
  now w' = now w
  /\ exists new : list Log.t,
       logs (db w') = (logs (db w) ++ new)%list
       /\ Forall (fun e => Log.timestamp e = now w
                           /\ In (Log.action e) audit_actions) new.

Definition extends_audit {A} (c : Script A) : Prop :=
  forall w : World, audit_extended w (world_after c w).

(** The audit table is in non-decreasing timestamp order and holds no entry
    from the future. *)
Definition audit_ordered (w : World) : Prop :=
  Sorted.StronglySorted Z.le (map Log.timestamp (logs (db w)))
  /\ Forall (fun e => Log.timestamp e <= now w) (logs (db w)).

(** ** A deployment to run examples on

    The credentials are the demo accounts the login page prints; the cipher
    is a stand-in that tags its argument, enough to execute the script. *)

Definition demo_credentials : list (string * string * string) :=
  [("admin", "admin123", "admin");
   ("dr_bob", "doc123", "doctor");
   ("alice_recep", "rec123", "receptionist")].

Definition demo_authenticate (username password : string) : option User.t :=
  match find (fun c => (fst (fst c) =? username)%string
                       && (snd (fst c) =? password)%string)
             demo_credentials with
  | Some c => Some (User.mk username (snd c))
  | None => None
  end.

Definition strip_prefix (pre s : string) : option string :=
  if String.prefix pre s
  then Some (substring (String.length pre) (String.length s - String.length pre) s)
  else None.

Definition demo_cipher : Cipher.t :=
  Cipher.mk (fun x => "k1:" ++ x) (strip_prefix "k1:").

Definition demo_env : Env :=
  mkEnv "ANON_" 4 "X"%char demo_cipher demo_authenticate.

Definition idle : Inputs :=
  mkInputs "" "" false None false Anonymized "" "" "" false
           0 None None None false false 0 false.

Definition login_as (username password : string) : Inputs :=
  mkInputs username password true None false Anonymized "" "" "" false
           0 None None None false false 0 false.

Definition click_nav (p : string) : Inputs :=
  mkInputs "" "" false (Some p) false Anonymized "" "" "" false
           0 None None None false false 0 false.

Definition submit_add (name contact diagnosis : string) : Inputs :=
  mkInputs "" "" false None false Anonymized name contact diagnosis true
           0 None None None false false 0 false.

Definition click_apply : Inputs :=
  mkInputs "" "" false None false Anonymized "" "" "" false
           0 None None None false true 0 false.

Definition empty_db : Database := mkDatabase [] [].

Definition fresh_world : World :=
  mkWorld empty_db [] (new_session 0) 0 [].

Definition admin_user : User.t := User.mk "admin" "admin".
Definition doctor_user : User.t := User.mk "dr_bob" "doctor".
Definition receptionist_user : User.t := User.mk "alice_recep" "receptionist".

Definition jane : Patient.t :=
  Patient.mk 1 "Jane Doe" "5551234567" "flu" "ANON_1" "XXXXXX4567"
             "k1:Jane Doe" "k1:5551234567" 0.

(** A world with one patient and an empty audit table, [u] logged in and
    looking at page [p]. *)
Definition ward (u : User.t) (p : string) : World :=
  mkWorld (mkDatabase [jane] []) [] (mkSession (Some u) p 0) 10 [].

(** The front desk before the first patient: an empty database, the
    receptionist logged in on the patients page. *)
Definition front_desk : World :=
  mkWorld empty_db [] (mkSession (Some receptionist_user) "Patients" 0) 0 [].

(** ** Relations between the worlds before and after a computation *)

(** [c] takes every world to one that [R] relates to it. *)
Definition along {A} (R : World -> World -> Prop) (c : Script A) : Prop :=
  forall w : World, R w (world_after c w).

(** Nothing but the screen and the audit table differs: same patients, same
    session, same clock. *)
Definition quiet (w w' : World) : Prop :=
  patients (db w') = patients (db w)
  /\ session w' = session w
  /\ now w' = now w.

(** The notices a computation prints. *)
Definition printed_by (c : Script unit) (w : World) : list Notice :=
  skipn (List.length (screen w)) (screen (world_after c w)).

(** The row update of the update form: the record of id [sid] gets the
    typed raw fields and the masks recomputed from the id and the typed
    contact. *)
Definition update_row (env : Env) (sid : Z) (name contact diagnosis : string)
                      (p : Patient.t) : Patient.t :=
  if Patient.patient_id p =? sid
  then DB.set_raw_and_anonymized name contact diagnosis
         (mask_name env sid) (mask_contact env contact) p
  else p.

(** What one run can do to the patient table: leave it, append the record
    of the add form under the next id, rewrite the rows of one existing id,
    or anonymize every row. *)
Inductive TableStep (env : Env) (i : Inputs) (w w' : World) : Prop :=
| table_kept :
    patients (db w') = patients (db w) -> TableStep env i w w'
| table_added :
    patients (db w')
    = (patients (db w)
       ++ [add_form_record env i (DB.next_patient_id (patients (db w)))
             (mask_name env (DB.next_patient_id (patients (db w))))
             (now w)])%list ->
    TableStep env i w w'
| table_updated (sid : Z) (name contact diagnosis : string) :
    In sid (map Patient.patient_id (patients (db w))) ->
    patients (db w')
    = map (update_row env sid name contact diagnosis) (patients (db w)) ->
    TableStep env i w w'
| table_anonymized :
    patients (db w')
    = map (DB.anonymize (mask_name env) (mask_contact env)
                        (Cipher.encrypt (get_cipher env)))
          (patients (db w)) ->
    TableStep env i w w'.

(** The roles under which [app.py] writes each action tag: the guard that
    encloses the call of [log_user_action]. *)
Definition permitted (role action : string) : bool :=
  if str_in action ["ANONYMIZE_ALL"; "DECRYPT_DATA"; "VIEW_AUDIT_LOG";
                    "VIEW_RAW_DATA"]
  then (role =? "admin")%string
  else if (action =? "VIEW_ANONYMIZED_DATA")%string
  then (role =? "doctor")%string
  else if str_in action ["ADD_PATIENT"; "UPDATE_PATIENT"]
  then str_in role ["admin"; "receptionist"]
  else true.

Definition is_write (n : Notice) : bool :=
  match n with
  | Write _ => true
  | _ => false
  end.

(** The session is [u]'s or nobody's. *)
Definition session_of (u : User.t) (s : Session) : Prop :=
  user s = Some u \/ user s = None.

(** In a session of [u], what a computation adds: audit entries in [u]'s
    name for actions [u]'s role is permitted, and decrypted text on the
    screen only if [u] is an admin; the session stays [u]'s or ends. *)
Definition acts_as (u : User.t) (w w' : World) : Prop :=
  session_of u (session w) ->
  session_of u (session w')
  /\ (exists new : list Log.t,
        logs (db w') = (logs (db w) ++ new)%list
        /\ Forall (fun e => Log.username e = User.username u
                            /\ Log.role e = User.role u
                            /\ permitted (User.role u) (Log.action e) = true)
                  new)
  /\ (exists notices : list Notice,
        screen w' = (screen w ++ notices)%list
        /\ Forall (fun n => is_write n = true ->
                            (User.role u =? "admin")%string = true)
                  notices).

(** The page of a logged-in session is one its sidebar offers. *)
Definition page_offered (w : World) : Prop :=
  forall u : User.t,
    user (session w) = Some u -> In (page (session w)) (sidebar_pages u).

(** Every record carries the masks of its own id and contact. *)
Definition masks_current (env : Env) (w : World) : Prop :=
  Forall (fun p => Patient.anonymized_name p
                   = mask_name env (Patient.patient_id p)
                   /\ Patient.anonymized_contact p
                      = mask_contact env (Patient.contact p))
         (patients (db w)).

(** ** Uptime

    Times are in microseconds, the resolution of [datetime.now()]. *)

(** [delta.seconds] of a [timedelta]: the seconds within the day, after
    whole days and the microseconds are split off. *)
Definition timedelta_seconds (delta : Z) : Z := (delta / 1000000) mod 86400.

(** [uptime.seconds // 60] for [uptime = datetime.now() - start_time]. *)
Definition uptime_minutes (start_time now : Z) : Z :=
  timedelta_seconds (now - start_time) / 60.

(** ** More inputs and worlds to run examples on *)

Definition click_decrypt : Inputs :=
  mkInputs "" "" false None false Anonymized "" "" "" false
           0 None None None false false 0 true.

Definition click_logout : Inputs :=
  mkInputs "" "" false None true Anonymized "" "" "" false
           0 None None None false false 0 false.

(** The update form submitted for the first patient with a new name. *)
Definition submit_update (name : string) : Inputs :=
  mkInputs "" "" false None false Anonymized "" "" "" false
           0 (Some name) None None true false 0 false.

(** A record whose stored ciphertexts are not the cipher's. *)
Definition mallory : Patient.t :=
  Patient.mk 7 "Mallory" "5550000000" "cold" "ANON_7" "XXXXXX0000"
             "garbled" "garbled" 0.

(** The admin on the anonymization page, the table holding that record. *)
Definition tampered_ward : World :=
  mkWorld (mkDatabase [mallory] []) []
          (mkSession (Some admin_user) "Anonymization" 0) 10 [].

(** What the decrypt button prints for a record, after the notice of the
    page: the three notices when the cipher accepts both stored
    ciphertexts, nothing when it raises. *)
Definition decrypted_notices (env : Env) (p : Patient.t) : list Notice :=
  match Cipher.decrypt (get_cipher env) (Patient.encrypted_name p),
        Cipher.decrypt (get_cipher env) (Patient.encrypted_contact p) with
  | Some name, Some contact =>
      [Success "Decrypted Data:";
       Write ("**Name:** " ++ name);
       Write ("**Contact:** " ++ contact)]
  | _, _ => []
  end.

(** No button is pressed and no form is submitted in the run. *)
Definition nothing_pressed (i : Inputs) : Prop :=
  nav_click i = None /\ logout_click i = false /\ login_submit i = false
  /\ add_submit i = false /\ upd_submit i = false /\ apply_click i = false.

(** [c] never asks for a rerun. *)
Definition settles {A} (c : Script A) : Prop :=
  forall w : World, outcome_of c w <> Rerun.

(** * Properties *)

Unset Implicit Arguments.

(** ** Strings *)

Example str_examples : str 999 = "999" /\ str 0 = "0" /\ str (-12) = "-12".
Proof. repeat split; reflexivity. Qed.

Lemma str_inj (a b : Z) : str a = str b -> a = b.
Proof.
  unfold str. intros H.
  apply (f_equal NilEmpty.int_of_string) in H.
  rewrite !NilEmpty.isi in H.
  injection H as H.
  apply (f_equal Z.of_int) in H.
  now rewrite !DecimalZ.of_to in H.
Qed.

Lemma append_cancel_l (p a b : string) : p ++ a = p ++ b -> a = b.
Proof.
  induction p as [|c p IH]; simpl; intros H.
  - exact H.
  - injection H as H. auto.
Qed.

Lemma chars_length (s : string) : List.length (chars s) = String.length s.
Proof. induction s; simpl; congruence. Qed.

Lemma of_chars_app (l1 l2 : list ascii) :
  of_chars (l1 ++ l2) = of_chars l1 ++ of_chars l2.
Proof. induction l1; simpl; [reflexivity | f_equal; assumption]. Qed.

Lemma of_chars_length (l : list ascii) :
  String.length (of_chars l) = List.length l.
Proof. induction l; simpl; congruence. Qed.

Lemma of_chars_chars (s : string) : of_chars (chars s) = s.
Proof. apply string_of_list_ascii_of_string. Qed.

Lemma chars_of_chars (l : list ascii) : chars (of_chars l) = l.
Proof. apply list_ascii_of_string_of_list_ascii. Qed.

Lemma mask_string_length (c : ascii) (n : nat) :
  String.length (mask_string c n) = n.
Proof. unfold mask_string. now rewrite of_chars_length, repeat_length. Qed.

Lemma mask_string_chars (c : ascii) (n : nat) :
  Forall (eq c) (chars (mask_string c n)).
Proof.
  unfold mask_string. rewrite chars_of_chars.
  induction n; simpl; constructor; auto.
Qed.

(** The last [k] characters of [s] are a suffix of [s], of length [k]. *)
Lemma suffix_spec (k : nat) (s : string) :
  (k <= String.length s)%nat ->
  s = of_chars (firstn (String.length s - k) (chars s)) ++ suffix k s
  /\ String.length (suffix k s) = k.
Proof.
  intros Hk. unfold suffix. split.
  - now rewrite <- of_chars_app, firstn_skipn, of_chars_chars.
  - rewrite of_chars_length, length_skipn, chars_length. lia.
Qed.

(** ** Field masker *)

(** C7.  [mask_name] is a function of the numeric identifier alone: it is
    injective (distinct ids give distinct pseudonyms), equal ids give the
    same pseudonym, and the pseudonym a patient gets from anonymisation is
    the same whatever the patient's name and other fields are. *)
Theorem mask_name_injective (env : Env) :
  (forall i j : Z, i <> j -> mask_name env i <> mask_name env j)
  /\ (forall i j : Z, i = j -> mask_name env i = mask_name env j)
  /\ (forall (enc : string -> string) (p q : Patient.t),
         Patient.patient_id p = Patient.patient_id q ->
         Patient.anonymized_name
           (DB.anonymize (mask_name env) (mask_contact env) enc p)
         = Patient.anonymized_name
             (DB.anonymize (mask_name env) (mask_contact env) enc q)).
Proof.
  split; [|split].
  - intros i j Hij H. apply Hij. unfold mask_name in H.
    apply append_cancel_l in H. now apply str_inj.
  - now intros i j ->.
  - intros enc p q H. simpl. now rewrite H.
Qed.

Lemma mask_name_injective_witness :
  mask_name demo_env 1 <> mask_name demo_env 2.
Proof.
  apply (proj1 (mask_name_injective demo_env) 1 2). discriminate.
Defined.

(** C8.  A contact at least as long as the preserved suffix is masked to
    the mask character repeated over the leading part, followed by the
    trailing characters of the contact themselves; a shorter contact is
    masked to mask characters only, as many as it has characters. *)
Theorem mask_contact_keeps_suffix (env : Env) (c : string) :
  ((suffix_len env <= String.length c)%nat ->
   exists head tail : string,
     c = head ++ tail
     /\ String.length tail = suffix_len env
     /\ mask_contact env c
        = mask_string (mask_char env) (String.length head) ++ tail)
  /\ ((String.length c < suffix_len env)%nat ->
      Forall (eq (mask_char env)) (chars (mask_contact env c))
      /\ String.length (mask_contact env c) = String.length c).
Proof.
  unfold mask_contact. split; intros H.
  - destruct (suffix_spec (suffix_len env) c H) as [Hc Hl].
    exists (of_chars (firstn (String.length c - suffix_len env) (chars c))),
           (suffix (suffix_len env) c).
    split; [exact Hc | split; [exact Hl |]].
    apply Nat.leb_le in H. rewrite H.
    rewrite of_chars_length, length_firstn, chars_length.
    now rewrite Nat.min_l by lia.
  - apply Nat.leb_gt in H. rewrite H.
    split; [apply mask_string_chars | apply mask_string_length].
Qed.

Lemma mask_contact_keeps_suffix_witness :
  exists head tail : string,
    "5551234567" = head ++ tail
    /\ String.length tail = 4%nat
    /\ mask_contact demo_env "5551234567"
       = mask_string "X" (String.length head) ++ tail.
Proof.
  apply (proj1 (mask_contact_keeps_suffix demo_env "5551234567")).
  simpl. lia.
Defined.

Example mask_contact_examples :
  mask_contact demo_env "5551234567" = "XXXXXX4567"
  /\ mask_contact demo_env "4567" = "4567"
  /\ mask_contact demo_env "567" = "XXX".
Proof. repeat split; reflexivity. Qed.

(** ** Bulk anonymisation *)

Lemma anonymize_idempotent (mn : Z -> string) (mc enc : string -> string)
      (p : Patient.t) :
  DB.anonymize mn mc enc (DB.anonymize mn mc enc p) = DB.anonymize mn mc enc p.
Proof. reflexivity. Qed.

(** C6.  Anonymising twice in a row, with the same cipher and nothing
    written in between, leaves the database that anonymising once leaves. *)
Theorem anonymize_all_idempotent (env : Env) (d : Database) :
  let f := DB.anonymize_all_patients (mask_name env) (mask_contact env)
                                     (Cipher.encrypt (get_cipher env)) in
  f (f d) = f d.
Proof.
  simpl. unfold DB.anonymize_all_patients. simpl. f_equal.
  rewrite map_map. apply map_ext. intros p. apply anonymize_idempotent.
Qed.

(** ** Audit trail *)

Local Open Scope list_scope.

Ltac unfold_script :=
  unfold outcome_of, world_after, bind, ret, raise, st_rerun, notify,
    set_user, set_page, put_session, get_session, current_user, clock,
    query, commit, get_all_patients, get_all_logs in *.

Lemma log_user_action_logged (action detail : string) (w : World)
      (u : User.t) :
  user (session w) = Some u ->
  log_user_action action detail w
  = (Done tt,
     committed (DB.add_log (User.username u) (User.role u) action detail
                           (now w) (db w)) w).
Proof.
  intros Hu. unfold log_user_action. unfold_script. simpl.
  now rewrite Hu.
Qed.

Lemma log_user_action_anonymous (action detail : string) (w : World) :
  user (session w) = None ->
  log_user_action action detail w = (Done tt, w).
Proof.
  intros Hu. unfold log_user_action. unfold_script. simpl.
  now rewrite Hu.
Qed.

Lemma printed_printed (l1 l2 : list Notice) (w : World) :
  printed l2 (printed l1 w) = printed (l1 ++ l2) w.
Proof. unfold printed. simpl. now rewrite <- app_assoc. Qed.

(** The banner the dashboard prints for a role. *)
Definition dashboard_banner (u : User.t) : Notice :=
  if (User.role u =? "admin")%string then
    Success "**Admin Access**: Full system control, raw data access, audit logs"
  else if (User.role u =? "doctor")%string then
    Info "**Doctor Access**: View anonymized patient data only"
  else
    Warning "**Receptionist Access**: Add/edit records, no sensitive data view".

Lemma dashboard_page_run (w : World) (u : User.t) :
  user (session w) = Some u ->
  dashboard_page w
  = (Done tt,
     committed (DB.add_log (User.username u) (User.role u)
                           "VIEW_DASHBOARD" "Accessed dashboard"
                           (now w) (db w))
               (printed [dashboard_banner u] w)).
Proof.
  intros Hu. unfold dashboard_page, dashboard_banner.
  unfold bind at 1. unfold current_user, bind, get_session.
  rewrite Hu. unfold ret.
  destruct (User.role u =? "admin")%string;
    [| destruct (User.role u =? "doctor")%string];
    unfold notify; cbv beta iota;
    (rewrite log_user_action_logged with (u := u) by exact Hu);
    reflexivity.
Qed.

Lemma nav_buttons_idle (pages : list string) (w : World) :
  nav_buttons pages None w = (Done tt, w).
Proof. induction pages as [|p pages IH]; simpl; [reflexivity | exact IH]. Qed.

(** With a user logged in and no sidebar button clicked, a run is the
    routed page. *)
Lemma main_routes (env : Env) (i : Inputs) (w : World) (u : User.t) :
  user (session w) = Some u ->
  nav_click i = None -> logout_click i = false ->
  main env i w = route env i w.
Proof.
  intros Hu Hn Hl. unfold main. unfold bind at 1. unfold get_session at 1.
  rewrite Hu, Hn, Hl. unfold bind at 1. rewrite nav_buttons_idle.
  reflexivity.
Qed.

(** C10.  Rendering the dashboard for a logged-in user of any role ends
    normally and appends one entry with action VIEW_DASHBOARD for that user,
    stamped with the current time; patients are untouched.  A run of the
    script that is routed to the dashboard with no sidebar button clicked is
    such a render. *)
Theorem dashboard_view_logged (w : World) (u : User.t) :
  user (session w) = Some u ->
  outcome_of dashboard_page w = Done tt
  /\ logs (db (world_after dashboard_page w))
     = logs (db w)
       ++ [log_entry u "VIEW_DASHBOARD" "Accessed dashboard" (now w)]
  /\ patients (db (world_after dashboard_page w)) = patients (db w)
  /\ (forall (env : Env) (i : Inputs),
         page (session w) = "Dashboard" ->
         nav_click i = None -> logout_click i = false ->
         main env i w = dashboard_page w).
Proof.
  intros Hu. unfold outcome_of, world_after.
  rewrite (dashboard_page_run w u Hu). simpl.
  repeat split.
  intros env i Hp Hn Hl. rewrite (main_routes env i w u Hu Hn Hl).
  unfold route, bind, get_session. rewrite Hp. simpl.
  now apply dashboard_page_run.
Qed.

Lemma dashboard_view_logged_witness :
  logs (db (world_after dashboard_page (ward receptionist_user "Dashboard")))
  = [log_entry receptionist_user "VIEW_DASHBOARD" "Accessed dashboard" 10].
Proof.
  apply (dashboard_view_logged (ward receptionist_user "Dashboard")
                               receptionist_user).
  reflexivity.
Defined.

Lemma skipn_length_app {A} (l l' : list A) :
  skipn (List.length l) (l ++ l') = l'.
Proof. induction l as [|a l IH]; simpl; [reflexivity | exact IH]. Qed.

Lemma is_empty_false {A} (l : list A) : l <> [] -> is_empty l = false.
Proof. destruct l; [congruence | reflexivity]. Qed.

Lemma check_role_admin (s : Session) (u : User.t) :
  user s = Some u -> User.role u = "admin" -> check_role s ["admin"] = true.
Proof. intros Hu Hr. unfold check_role. rewrite Hu. simpl. now rewrite Hr. Qed.

Lemma audit_logs_page_run (w : World) (u : User.t) :
  user (session w) = Some u -> User.role u = "admin" ->
  audit_logs_page w
  = if is_empty (logs (db w))
    then (Done tt,
          printed
            [Info "**GDPR Article 5(2)**: Accountability through comprehensive logging";
             Info "No audit logs found"] w)
    else (Done tt,
          committed (DB.add_log (User.username u) (User.role u)
                       "VIEW_AUDIT_LOG" "Accessed audit logs" (now w) (db w))
                    (printed
                       [Info "**GDPR Article 5(2)**: Accountability through comprehensive logging"]
                       w)).
Proof.
  intros Hu Hr. unfold audit_logs_page.
  unfold bind at 1. unfold get_session at 1.
  rewrite (check_role_admin _ u Hu Hr).
  change (negb true) with false. cbv beta iota.
  unfold bind at 1. unfold notify at 1.
  unfold bind, get_all_logs, query, DB.get_all_logs. cbn [db].
  destruct (is_empty (logs (db w))).
  - unfold notify, printed. cbn [db journal session now screen].
    now rewrite <- app_assoc.
  - now rewrite log_user_action_logged with (u := u) by exact Hu.
Qed.

(** C9, as the claim states it, fails in its last clause: the very first
    audit-log view is recorded.  The admin logs in on a fresh database, the
    rerun renders the dashboard, a click opens the audit logs; the table
    then holds LOGIN and VIEW_DASHBOARD and no audit-log view yet, and the
    first render of the page adds VIEW_AUDIT_LOG. *)
Lemma first_audit_view_recorded :
  let opened :=
    runs demo_env
         [(0%N, login_as "admin" "admin123"); (0%N, idle);
          (0%N, click_nav "Audit Logs")]
         fresh_world in
  page (session opened) = "Audit Logs"
  /\ map Log.action (logs (db opened)) = ["LOGIN"; "VIEW_DASHBOARD"]
  /\ outcome_of (main demo_env idle) opened = Done tt
  /\ map Log.action (appended (main demo_env idle) opened)
     = ["VIEW_AUDIT_LOG"].
Proof. repeat split. Qed.

(** C9, amended.  When an admin opens the audit-log page, an entry with
    action VIEW_AUDIT_LOG is appended exactly when the audit table already
    holds an entry; a view of an empty audit table writes nothing, so a
    view of an empty table leaves no record of itself. *)
Theorem audit_view_logged_iff_nonempty (w : World) (u : User.t) :
  user (session w) = Some u -> User.role u = "admin" ->
  outcome_of audit_logs_page w = Done tt
  /\ (appended audit_logs_page w
      = [log_entry u "VIEW_AUDIT_LOG" "Accessed audit logs" (now w)]
      <-> logs (db w) <> [])
  /\ (logs (db w) <> [] ->
      logs (db (world_after audit_logs_page w))
      = logs (db w)
        ++ [log_entry u "VIEW_AUDIT_LOG" "Accessed audit logs" (now w)])
  /\ (logs (db w) = [] -> writes_nothing audit_logs_page w).
Proof.
  intros Hu Hr. unfold appended, writes_nothing, outcome_of, world_after.
  rewrite (audit_logs_page_run w u Hu Hr).
  destruct (logs (db w)) as [|e l] eqn:Hl; simpl; rewrite ?Hl; simpl.
  - repeat split; congruence.
  - repeat split; try congruence.
    intros _. apply (skipn_length_app l).
Qed.

Lemma audit_view_logged_iff_nonempty_witness :
  appended audit_logs_page
           (world_after dashboard_page (ward admin_user "Audit Logs"))
  = [log_entry admin_user "VIEW_AUDIT_LOG" "Accessed audit logs" 10]
  <-> logs (db (world_after dashboard_page (ward admin_user "Audit Logs")))
      <> [].
Proof.
  apply (audit_view_logged_iff_nonempty
           (world_after dashboard_page (ward admin_user "Audit Logs"))
           admin_user); reflexivity.
Defined.

(** ** Patients page *)

Lemma view_patients_tab_run (i : Inputs) (u : User.t) (w : World) :
  user (session w) = Some u ->
  view_patients_tab i u w
  = if is_empty (patients (db w)) then
      (Done tt, printed [Info "No patient records found"] w)
    else if (User.role u =? "admin")%string then
      match view_mode i with
      | RawData =>
          (Done tt,
           committed
             (DB.add_log (User.username u) (User.role u) "VIEW_RAW_DATA"
                         "Admin viewed raw patient data" (now w) (db w))
             (printed
                [Warning "Viewing raw patient data - ensure GDPR compliance"]
                w))
      | Anonymized => (Done tt, w)
      end
    else if (User.role u =? "doctor")%string then
      (Done tt,
       committed
         (DB.add_log (User.username u) (User.role u) "VIEW_ANONYMIZED_DATA"
                     "Doctor viewed anonymized data" (now w) (db w))
         (printed [Info "Viewing anonymized data (GDPR compliant)"] w))
    else
      (Done tt,
       printed
         [Warning "Receptionists cannot view patient records (confidentiality)"]
         w).
Proof.
  intros Hu. unfold view_patients_tab.
  unfold bind at 1. unfold get_all_patients, query, DB.get_all_patients.
  destruct (is_empty (patients (db w))); [reflexivity |].
  destruct (User.role u =? "admin")%string.
  - destruct (view_mode i); [reflexivity |].
    unfold bind, notify.
    now rewrite log_user_action_logged with (u := u) by exact Hu.
  - destruct (User.role u =? "doctor")%string; [| reflexivity].
    unfold bind, notify.
    now rewrite log_user_action_logged with (u := u) by exact Hu.
Qed.

Lemma add_patient_tab_denied (env : Env) (i : Inputs) (u : User.t)
      (w : World) :
  str_in (User.role u) ["admin"; "receptionist"] = false ->
  add_patient_tab env i u w
  = (Done tt,
     printed [Error "Doctors cannot add patients (integrity control)"] w).
Proof. intros Hr. unfold add_patient_tab. now rewrite Hr. Qed.

Lemma update_patient_tab_denied (env : Env) (i : Inputs) (u : User.t)
      (w : World) :
  str_in (User.role u) ["admin"; "receptionist"] = false ->
  update_patient_tab env i u w
  = (Done tt,
     printed [Error "Doctors cannot update patients (integrity control)"] w).
Proof. intros Hr. unfold update_patient_tab. now rewrite Hr. Qed.

(** The patients page as a doctor sees it. *)
Lemma patients_page_doctor (env : Env) (i : Inputs) (w : World)
      (u : User.t) :
  user (session w) = Some u -> User.role u = "doctor" ->
  patients_page env i w
  = (Done tt,
     printed [Error "Doctors cannot add patients (integrity control)";
              Error "Doctors cannot update patients (integrity control)"]
       (if is_empty (patients (db w)) then
          printed [Info "No patient records found"] w
        else
          committed
            (DB.add_log (User.username u) (User.role u)
                        "VIEW_ANONYMIZED_DATA"
                        "Doctor viewed anonymized data" (now w) (db w))
            (printed [Info "Viewing anonymized data (GDPR compliant)"] w))).
Proof.
  intros Hu Hr.
  assert (Hd : str_in (User.role u) ["admin"; "receptionist"] = false)
    by now rewrite Hr.
  unfold patients_page. unfold bind at 1. unfold current_user.
  unfold bind at 1. unfold get_session at 1. rewrite Hu. unfold ret at 1.
  unfold bind at 1. rewrite (view_patients_tab_run i u w Hu).
  rewrite Hr. simpl String.eqb. cbv iota.
  destruct (is_empty (patients (db w)));
    unfold bind;
    rewrite (add_patient_tab_denied env i u _ Hd);
    rewrite (update_patient_tab_denied env i u _ Hd);
    rewrite printed_printed; reflexivity.
Qed.

(** *** Adding a patient *)

Lemma next_patient_id_above (ps : list Patient.t) :
  Forall (fun p => Patient.patient_id p < DB.next_patient_id ps) ps.
Proof.
  unfold DB.next_patient_id.
  induction ps as [|p ps IH]; constructor; cbn [fold_right map].
  - lia.
  - eapply Forall_impl; [| exact IH]. cbv beta. intros q Hq. lia.
Qed.

Lemma has_patient_last (pid : Z) (ps : list Patient.t) (p : Patient.t) :
  Patient.patient_id p = pid -> DB.has_patient pid (ps ++ [p]) = true.
Proof.
  intros Hp. unfold DB.has_patient. rewrite existsb_app. simpl.
  rewrite Hp, Z.eqb_refl. now rewrite orb_true_r.
Qed.

Lemma map_update_others (pid : Z) (f : Patient.t -> Patient.t)
      (ps : list Patient.t) :
  Forall (fun p => Patient.patient_id p < pid) ps ->
  map (fun p => if Patient.patient_id p =? pid then f p else p) ps = ps.
Proof.
  induction 1 as [|p ps Hp _ IH]; simpl; [reflexivity |].
  rewrite IH. destruct (Z.eqb_spec (Patient.patient_id p) pid); [lia |].
  reflexivity.
Qed.

(** Updating the record that was just inserted touches that record only. *)
Lemma update_patient_inserted (ps : list Patient.t) (lg : list Log.t)
      (n c d an ac en ec n' c' d' an' ac' : string) (t : Z) :
  DB.update_patient (DB.next_patient_id ps) n' c' d' an' ac'
    (mkDatabase (ps ++ [Patient.mk (DB.next_patient_id ps) n c d an ac
                                   en ec t]) lg)
  = Some (mkDatabase
            (ps ++ [Patient.mk (DB.next_patient_id ps) n' c' d' an' ac'
                               en ec t]) lg).
Proof.
  unfold DB.update_patient. simpl patients.
  rewrite has_patient_last by reflexivity.
  rewrite map_app, (map_update_others _ _ ps (next_patient_id_above ps)).
  simpl. now rewrite Z.eqb_refl.
Qed.

(** The add form on valid input: an insert under the placeholder
    pseudonym of id 999, an update to the pseudonym of the assigned id, the
    audit entry, the success notice, a rerun. *)
Lemma add_patient_tab_run (env : Env) (i : Inputs) (u : User.t) (w : World) :
  user (session w) = Some u ->
  str_in (User.role u) ["admin"; "receptionist"] = true ->
  add_submit i = true ->
  truthy (add_name i) && truthy (add_contact i) && truthy (add_diagnosis i)
  = true ->
  let pid := DB.next_patient_id (patients (db w)) in
  let inserted :=
    mkDatabase
      (patients (db w)
       ++ [add_form_record env i pid (mask_name env 999) (now w)])
      (logs (db w)) in
  let updated :=
    mkDatabase
      (patients (db w)
       ++ [add_form_record env i pid (mask_name env pid) (now w)])
      (logs (db w)) in
  add_patient_tab env i u w
  = (Rerun,
     printed [Success ("Patient added successfully (ID: " ++ str pid ++ ")")]
       (committed
          (DB.add_log (User.username u) (User.role u) "ADD_PATIENT"
                      ("Added patient ID " ++ str pid) (now w) updated)
          (committed updated (committed inserted w)))).
Proof.
  intros Hu Hr Hs Ht pid inserted updated.
  unfold add_patient_tab. rewrite Hr, Hs, Ht.
  unfold bind at 1. unfold add_patient.
  unfold bind at 1. unfold clock at 1.
  unfold bind at 1. unfold query at 1.
  unfold bind at 1. unfold commit at 1. unfold ret at 1.
  unfold DB.add_patient. cbn [fst snd].
  fold pid. unfold add_form_record in inserted, updated.
  fold inserted. fold (committed inserted w).
  unfold bind at 1. unfold update_patient.
  unfold bind at 1. unfold query at 1.
  cbn [db committed].
  unfold inserted at 1, pid at 1 2.
  rewrite update_patient_inserted. fold pid. fold updated.
  unfold commit at 1. fold (committed updated (committed inserted w)).
  unfold bind at 1.
  rewrite log_user_action_logged with (u := u) by exact Hu.
  reflexivity.
Qed.

(** C1, as the claim states it, fails: the receptionist adds Jane Doe to an
    empty database, the assigned id is 1, and the first database state the
    flow commits holds her record under the placeholder pseudonym of id
    999, which is not the pseudonym of id 1. *)
Lemma add_persists_placeholder :
  let add := add_patient_tab demo_env
               (submit_add "Jane Doe" "5551234567" "flu")
               receptionist_user in
  outcome_of add front_desk = Rerun
  /\ exists (d : Database) (p : Patient.t),
       In d (journal (world_after add front_desk))
       /\ In p (patients d)
       /\ Patient.patient_id p = 1
       /\ Patient.anonymized_name p = mask_name demo_env 999
       /\ Patient.anonymized_name p
          <> mask_name demo_env (Patient.patient_id p).
Proof.
  split; [reflexivity |].
  exists (mkDatabase
            [Patient.mk 1 "Jane Doe" "5551234567" "flu" "ANON_999"
                        "XXXXXX4567" "k1:Jane Doe" "k1:5551234567" 0] []).
  eexists. split; [left; reflexivity |].
  split; [left; reflexivity |].
  repeat split. discriminate.
Qed.

(** C1, amended.  On valid input from an admin or a receptionist the add
    flow ends with a rerun; the patient table is then the old one followed
    by the new record, whose id is new to the table and whose pseudonym is
    [mask_name] of that id.  The flow commits three database states: the
    insert, with the pseudonym of the placeholder id 999; the update, with
    the pseudonym of the assigned id; and the audit entry. *)
Theorem add_ends_with_pseudonym_of_id (env : Env) (i : Inputs) (u : User.t)
        (w : World) :
  user (session w) = Some u ->
  str_in (User.role u) ["admin"; "receptionist"] = true ->
  add_submit i = true ->
  truthy (add_name i) && truthy (add_contact i) && truthy (add_diagnosis i)
  = true ->
  let pid := DB.next_patient_id (patients (db w)) in
  let w' := world_after (add_patient_tab env i u) w in
  outcome_of (add_patient_tab env i u) w = Rerun
  /\ ~ In pid (map Patient.patient_id (patients (db w)))
  /\ patients (db w')
     = patients (db w)
       ++ [add_form_record env i pid (mask_name env pid) (now w)]
  /\ exists inserted updated : Database,
       journal w' = journal w ++ [inserted; updated; db w']
       /\ patients inserted
          = patients (db w)
            ++ [add_form_record env i pid (mask_name env 999) (now w)]
       /\ patients updated = patients (db w')
       /\ logs inserted = logs (db w)
       /\ logs updated = logs (db w).
Proof.
  intros Hu Hr Hs Ht pid w'. subst w'.
  unfold outcome_of, world_after.
  rewrite (add_patient_tab_run env i u w Hu Hr Hs Ht).
  cbn [fst snd]. fold pid.
  split; [reflexivity |]. split.
  - intros Hin. apply in_map_iff in Hin. destruct Hin as [p [Hp Hin]].
    pose proof (next_patient_id_above (patients (db w))) as Hall.
    rewrite Forall_forall in Hall. specialize (Hall p Hin).
    fold pid in Hall. lia.
  - split; [reflexivity |].
    eexists. eexists. split.
    + simpl journal. rewrite <- !app_assoc. reflexivity.
    + repeat split.
Qed.

Lemma add_ends_with_pseudonym_of_id_witness :
  patients (db (world_after
                  (add_patient_tab demo_env
                     (submit_add "Jane Doe" "5551234567" "flu")
                     receptionist_user)
                  front_desk))
  = [jane].
Proof.
  apply (add_ends_with_pseudonym_of_id demo_env
           (submit_add "Jane Doe" "5551234567" "flu") receptionist_user
           front_desk); reflexivity.
Defined.

(** ** Anonymization page *)

Lemma anonymize_spec (env : Env) (p : Patient.t) :
  anonymized_from env p
    (DB.anonymize (mask_name env) (mask_contact env)
                  (Cipher.encrypt (get_cipher env)) p).
Proof. unfold anonymized_from. simpl. repeat split. Qed.

Lemma anonymize_all_spec (env : Env) (d : Database) :
  Forall2 (anonymized_from env)
    (patients d)
    (patients (DB.anonymize_all_patients (mask_name env) (mask_contact env)
                 (Cipher.encrypt (get_cipher env)) d))
  /\ logs (DB.anonymize_all_patients (mask_name env) (mask_contact env)
             (Cipher.encrypt (get_cipher env)) d)
     = logs d.
Proof.
  split; [| reflexivity]. simpl.
  induction (patients d) as [|p ps IH]; simpl; constructor.
  - apply anonymize_spec.
  - exact IH.
Qed.

Lemma anonymization_page_denied (env : Env) (i : Inputs) (w : World) :
  check_role (session w) ["admin"] = false ->
  anonymization_page env i w
  = (Done tt, printed [Error "Access Denied: Admin only"] w).
Proof.
  intros Hc. unfold anonymization_page.
  unfold bind at 1. unfold get_session at 1. now rewrite Hc.
Qed.

(** The button "Apply Anonymization" pressed by an admin. *)
Lemma anonymization_page_apply (env : Env) (i : Inputs) (w : World)
      (u : User.t) :
  user (session w) = Some u -> User.role u = "admin" ->
  apply_click i = true ->
  let anonymized :=
    DB.anonymize_all_patients (mask_name env) (mask_contact env)
                              (Cipher.encrypt (get_cipher env)) (db w) in
  anonymization_page env i w
  = (Rerun,
     printed [Success "All patients anonymized and encrypted"]
       (committed
          (DB.add_log (User.username u) (User.role u) "ANONYMIZE_ALL"
                      "Batch anonymization applied with encryption"
                      (now w) anonymized)
          (committed anonymized
             (printed
                [Info "**GDPR Article 4(5)**: Pseudonymisation with separate key management"]
                w)))).
Proof.
  intros Hu Hr Ha anonymized. unfold anonymization_page.
  unfold bind at 1. unfold get_session at 1.
  rewrite (check_role_admin _ u Hu Hr).
  change (negb true) with false. cbv beta iota. rewrite Ha.
  unfold bind at 1. unfold notify at 1.
  match goal with
  | |- context [mkWorld (db w) (journal w) (session w) (now w)
                        (screen w ++ [?n])] =>
      fold (printed [n] w)
  end.
  unfold bind at 1. unfold bind at 1. unfold anonymize_all_patients.
  unfold bind at 1. unfold query at 1. unfold commit at 1.
  cbn [db printed]. fold anonymized.
  match goal with
  | |- context [mkWorld anonymized ?j ?s ?t ?sc] =>
      change (mkWorld anonymized j s t sc)
        with (committed anonymized
                (printed
                   [Info "**GDPR Article 4(5)**: Pseudonymisation with separate key management"]
                   w))
  end.
  unfold bind at 1.
  rewrite log_user_action_logged with (u := u) by exact Hu.
  reflexivity.
Qed.

(** C5.  When an admin applies the bulk anonymization, every patient keeps
    its id, name, contact, diagnosis and date, its anonymized name becomes
    [mask_name] of its id, its anonymized contact [mask_contact] of its
    contact, and its encrypted fields the encryptions of its name and
    contact; no patient is added or dropped, and the same holds of
    [anonymize_all_patients] on any database. *)
Theorem anonymize_all_keeps_raw_fields (env : Env) (i : Inputs) (w : World)
        (u : User.t) :
  user (session w) = Some u -> User.role u = "admin" ->
  apply_click i = true ->
  outcome_of (anonymization_page env i) w = Rerun
  /\ Forall2 (anonymized_from env)
       (patients (db w))
       (patients (db (world_after (anonymization_page env i) w)))
  /\ (forall d : Database,
         Forall2 (anonymized_from env)
           (patients d)
           (patients (DB.anonymize_all_patients
                        (mask_name env) (mask_contact env)
                        (Cipher.encrypt (get_cipher env)) d))).
Proof.
  intros Hu Hr Ha. unfold outcome_of, world_after.
  rewrite (anonymization_page_apply env i w u Hu Hr Ha). cbn [fst snd].
  split; [reflexivity |]. split.
  - apply (anonymize_all_spec env (db w)).
  - intros d. apply (anonymize_all_spec env d).
Qed.

Lemma anonymize_all_keeps_raw_fields_witness :
  Forall2 (anonymized_from demo_env)
    [jane]
    (patients (db (world_after (anonymization_page demo_env click_apply)
                               (ward admin_user "Anonymization")))).
Proof.
  apply (anonymize_all_keeps_raw_fields demo_env click_apply
           (ward admin_user "Anonymization") admin_user); reflexivity.
Defined.

(** ** Login and logout *)

Lemma login_page_success (env : Env) (i : Inputs) (w : World) (u : User.t) :
  login_submit i = true ->
  truthy (login_username i) && truthy (login_password i) = true ->
  authenticate_user env (login_username i) (login_password i) = Some u ->
  let signed_in :=
    mkWorld (db w) (journal w)
            (mkSession (Some u) "Dashboard" (start_time (session w)))
            (now w) (screen w) in
  login_page env i w
  = (Rerun,
     printed [Success ("Welcome, " ++ User.username u ++ " ("
                       ++ User.role u ++ ")")%string]
       (committed
          (DB.add_log (User.username u) (User.role u) "LOGIN"
             ("User " ++ login_username i ++ " logged in")%string
             (now w) (db w))
          signed_in)).
Proof.
  intros Hs Ht Ha signed_in. unfold login_page. rewrite Hs, Ht, Ha.
  unfold bind at 1.
  unfold bind at 1. unfold set_user, bind at 1, get_session, put_session.
  unfold bind at 1. unfold set_page, bind at 1, get_session, put_session.
  cbn [session user page start_time].
  fold signed_in.
  unfold bind at 1.
  rewrite log_user_action_logged with (u := u) by reflexivity.
  reflexivity.
Qed.

Lemma login_page_rejected (env : Env) (i : Inputs) (w : World) :
  login_submit i = true ->
  truthy (login_username i) && truthy (login_password i) = true ->
  authenticate_user env (login_username i) (login_password i) = None ->
  login_page env i w
  = (Done tt,
     printed [Error "Invalid username or password";
              Info demo_credentials_info] w).
Proof.
  intros Hs Ht Ha. unfold login_page. rewrite Hs, Ht, Ha.
  unfold bind, notify, printed. cbn [db journal session now screen].
  now rewrite <- app_assoc.
Qed.

Lemma login_page_incomplete (env : Env) (i : Inputs) (w : World) :
  login_submit i = true ->
  truthy (login_username i) && truthy (login_password i) = false ->
  login_page env i w
  = (Done tt,
     printed [Warning "Please enter both username and password";
              Info demo_credentials_info] w).
Proof.
  intros Hs Ht. unfold login_page. rewrite Hs, Ht.
  unfold bind, notify, printed. cbn [db journal session now screen].
  now rewrite <- app_assoc.
Qed.

Lemma login_page_idle (env : Env) (i : Inputs) (w : World) :
  login_submit i = false ->
  login_page env i w = (Done tt, printed [Info demo_credentials_info] w).
Proof. intros Hs. unfold login_page. now rewrite Hs. Qed.

Lemma logout_run (w : World) (u : User.t) :
  user (session w) = Some u ->
  let logged :=
    committed (DB.add_log (User.username u) (User.role u) "LOGOUT"
                          "User logged out" (now w) (db w)) w in
  logout w
  = (Rerun,
     mkWorld (db logged) (journal logged)
             (mkSession None "Login" (start_time (session w)))
             (now w) (screen w)).
Proof.
  intros Hu logged. unfold logout.
  unfold bind at 1. unfold get_session at 1. rewrite Hu.
  unfold bind at 1.
  rewrite log_user_action_logged with (u := u) by exact Hu.
  reflexivity.
Qed.

(** ** A doctor's session *)

Lemma check_role_doctor (s : Session) (u : User.t) :
  user s = Some u -> User.role u = "doctor" -> check_role s ["admin"] = false.
Proof. intros Hu Hr. unfold check_role. rewrite Hu. simpl. now rewrite Hr. Qed.

Lemma audit_logs_page_denied (w : World) :
  check_role (session w) ["admin"] = false ->
  audit_logs_page w = (Done tt, printed [Error "Access Denied: Admin only"] w).
Proof.
  intros Hc. unfold audit_logs_page, bind, get_session. now rewrite Hc.
Qed.

(** Whatever a doctor clicks, a run leaves the patient table alone and logs
    at most a logout, a dashboard view or an anonymized view. *)
Lemma doctor_run (env : Env) (i : Inputs) (w : World) (u : User.t) :
  user (session w) = Some u -> User.role u = "doctor" ->
  patients (db (world_after (main env i) w)) = patients (db w)
  /\ exists new : list Log.t,
       logs (db (world_after (main env i) w)) = logs (db w) ++ new
       /\ Forall (fun e => In (Log.action e)
                              ["LOGOUT"; "VIEW_DASHBOARD";
                               "VIEW_ANONYMIZED_DATA"]) new.
Proof.
  intros Hu Hr.
  set (Q := fun w' : World =>
              patients (db w') = patients (db w)
              /\ exists new : list Log.t,
                   logs (db w') = logs (db w) ++ new
                   /\ Forall (fun e => In (Log.action e)
                                          ["LOGOUT"; "VIEW_DASHBOARD";
                                           "VIEW_ANONYMIZED_DATA"]) new).
  assert (Hnone : forall w', db w' = db w -> Q w').
  { intros w' Hw. unfold Q. rewrite Hw. split; [reflexivity |]. exists [].
    split; [now rewrite app_nil_r | constructor]. }
  assert (Hone : forall w' a d t,
            In a ["LOGOUT"; "VIEW_DASHBOARD"; "VIEW_ANONYMIZED_DATA"] ->
            db w' = DB.add_log (User.username u) (User.role u) a d t (db w) ->
            Q w').
  { intros w' a d t Ha Hw. unfold Q. rewrite Hw. split; [reflexivity |].
    eexists. split; [reflexivity |]. constructor; [exact Ha | constructor]. }
  change (Q (snd (main env i w))).
  unfold main. unfold bind at 1. unfold get_session at 1.
  rewrite Hu. unfold sidebar_pages. rewrite Hr.
  change ("doctor" =? "admin")%string with false. cbv iota.
  rewrite app_nil_r. unfold bind at 1. unfold nav_buttons.
  destruct (match nav_click i with
            | Some c => (c =? "Dashboard")%string
            | None => false
            end); [now apply Hnone |].
  destruct (match nav_click i with
            | Some c => (c =? "Patients")%string
            | None => false
            end); [now apply Hnone |].
  unfold ret at 1. unfold bind at 1.
  destruct (logout_click i).
  - rewrite (logout_run w u Hu). cbn [fst snd].
    eapply Hone; [| reflexivity]. now left.
  - unfold ret at 1. unfold route, bind at 1, get_session. cbv zeta.
    destruct (page (session w) =? "Dashboard")%string.
    { rewrite (dashboard_page_run w u Hu). cbn [snd].
      eapply Hone; [| reflexivity]. right. now left. }
    destruct (page (session w) =? "Patients")%string.
    { rewrite (patients_page_doctor env i w u Hu Hr). cbn [snd].
      destruct (is_empty (patients (db w))).
      - now apply Hnone.
      - eapply Hone; [| reflexivity]. right. right. now left. }
    destruct (page (session w) =? "Anonymization")%string.
    { rewrite (anonymization_page_denied env i w
                 (check_role_doctor _ u Hu Hr)).
      now apply Hnone. }
    destruct (page (session w) =? "Audit Logs")%string.
    { rewrite (audit_logs_page_denied w (check_role_doctor _ u Hu Hr)).
      now apply Hnone. }
    now apply Hnone.
Qed.

(** C3.  In a session of role doctor the add tab only prints the denial:
    whatever the form holds, the database and its journal stay as they
    were, so no patient is created and nothing is logged for the attempt.
    Over the whole patients page the patient table is unchanged, and the
    only audit entry a doctor's render can add is the one of the
    anonymized view of a non-empty table.  No run of the script in a
    doctor's session, whatever is clicked, changes the patient table or
    logs an added patient. *)
Theorem doctor_add_denied (env : Env) (i : Inputs) (w : World) (u : User.t) :
  user (session w) = Some u -> User.role u = "doctor" ->
  add_patient_tab env i u w
  = (Done tt,
     printed [Error "Doctors cannot add patients (integrity control)"] w)
  /\ writes_nothing (add_patient_tab env i u) w
  /\ patients (db (world_after (patients_page env i) w)) = patients (db w)
  /\ appended (patients_page env i) w
     = (if is_empty (patients (db w)) then []
        else [log_entry u "VIEW_ANONYMIZED_DATA"
                        "Doctor viewed anonymized data" (now w)])
  /\ (forall i' : Inputs,
         patients (db (world_after (main env i') w)) = patients (db w)
         /\ Forall (fun e => Log.action e <> "ADD_PATIENT")
                   (appended (main env i') w)).
Proof.
  intros Hu Hr.
  assert (Hd : str_in (User.role u) ["admin"; "receptionist"] = false)
    by now rewrite Hr.
  unfold writes_nothing, appended.
  unfold world_after at 1 2 3 4.
  rewrite (add_patient_tab_denied env i u w Hd).
  rewrite (patients_page_doctor env i w u Hu Hr).
  repeat apply conj; try reflexivity.
  - now destruct (is_empty (patients (db w))).
  - destruct (is_empty (patients (db w))); simpl.
    + now rewrite skipn_all.
    + apply skipn_length_app.
  - intros i'. destruct (doctor_run env i' w u Hu Hr) as [Hp [new [Hl Hf]]].
    split; [exact Hp |]. rewrite Hl, skipn_length_app.
    eapply Forall_impl; [| exact Hf]. intros e He Ha. cbv beta in He.
    rewrite Ha in He. simpl in He. intuition discriminate.
Qed.

Lemma doctor_add_denied_witness :
  writes_nothing
    (add_patient_tab demo_env (submit_add "Jane Doe" "5551234567" "flu")
                     doctor_user)
    (ward doctor_user "Patients").
Proof.
  apply (doctor_add_denied demo_env
           (submit_add "Jane Doe" "5551234567" "flu")
           (ward doctor_user "Patients") doctor_user); reflexivity.
Defined.

(** ** Select boxes over the patient table *)

Lemma selectbox_in (ids : list Z) (index : nat) :
  ids <> [] -> In (selectbox ids index) ids.
Proof.
  intros Hne. unfold selectbox.
  destruct (nth_in_or_default index ids (hd 0 ids)) as [Hin | Hd].
  - exact Hin.
  - rewrite Hd. destruct ids; [congruence | now left].
Qed.

Lemma find_patient_in (sid : Z) (ps : list Patient.t) :
  In sid (map Patient.patient_id ps) ->
  exists p, find (fun p => Patient.patient_id p =? sid) ps = Some p
            /\ Patient.patient_id p = sid.
Proof.
  induction ps as [|q ps IH]; simpl; [tauto |].
  intros Hin. destruct (Z.eqb_spec (Patient.patient_id q) sid) as [He | Hn].
  - now exists q.
  - destruct Hin as [Hq | Hin]; [congruence | auto].
Qed.

Lemma has_patient_in (sid : Z) (ps : list Patient.t) :
  In sid (map Patient.patient_id ps) -> DB.has_patient sid ps = true.
Proof.
  intros Hin. unfold DB.has_patient. apply existsb_exists.
  apply in_map_iff in Hin. destruct Hin as [p [Hp Hin]].
  exists p. split; [exact Hin | now apply Z.eqb_eq].
Qed.

Lemma selected_patient_found (ps : list Patient.t) (index : nat) :
  ps <> [] ->
  exists p,
    find (fun p => Patient.patient_id p
                   =? selectbox (map Patient.patient_id ps) index) ps
    = Some p.
Proof.
  intros Hne.
  destruct (find_patient_in (selectbox (map Patient.patient_id ps) index) ps)
    as [p [Hp _]].
  - apply selectbox_in. destruct ps; [congruence | discriminate].
  - now exists p.
Qed.

(** *** Updating a patient *)

(** The update form submitted by an admin or a receptionist: the selected
    record is overwritten, then the audit entry is written. *)
Lemma update_patient_tab_run (env : Env) (i : Inputs) (u : User.t)
      (w : World) :
  user (session w) = Some u ->
  str_in (User.role u) ["admin"; "receptionist"] = true ->
  patients (db w) <> [] ->
  upd_submit i = true ->
  exists (selected : Patient.t) (updated : Database),
    let selected_id :=
      selectbox (map Patient.patient_id (patients (db w))) (upd_selected i) in
    let contact := text_input (upd_contact i) (Patient.contact selected) in
    find (fun p => Patient.patient_id p =? selected_id) (patients (db w))
    = Some selected
    /\ DB.update_patient selected_id
         (text_input (upd_name i) (Patient.name selected))
         contact
         (text_input (upd_diagnosis i) (Patient.diagnosis selected))
         (mask_name env selected_id) (mask_contact env contact) (db w)
       = Some updated
    /\ update_patient_tab env i u w
       = (Rerun,
          printed [Success "Patient updated successfully"]
            (committed
               (DB.add_log (User.username u) (User.role u) "UPDATE_PATIENT"
                  ("Updated patient ID " ++ str selected_id)%string
                  (now w) updated)
               (committed updated w))).
Proof.
  intros Hu Hr Hne Hs.
  destruct (selected_patient_found (patients (db w)) (upd_selected i) Hne)
    as [p Hp].
  assert (Hin : In (selectbox (map Patient.patient_id (patients (db w)))
                              (upd_selected i))
                   (map Patient.patient_id (patients (db w)))).
  { apply selectbox_in. destruct (patients (db w)); [congruence | discriminate]. }
  exists p. eexists. cbv zeta. split; [exact Hp |]. split.
  - unfold DB.update_patient. rewrite (has_patient_in _ _ Hin). reflexivity.
  - unfold update_patient_tab. rewrite Hr.
    unfold bind at 1. unfold get_all_patients, query, DB.get_all_patients.
    rewrite (is_empty_false _ Hne). cbv zeta.
    unfold bind at 1. unfold next_with_id. rewrite Hp. unfold ret at 1.
    rewrite Hs.
    unfold bind at 1. unfold update_patient.
    unfold bind at 1. unfold query at 1.
    unfold DB.update_patient. rewrite (has_patient_in _ _ Hin).
    unfold commit at 1.
    match goal with
    | |- context [mkWorld ?d (journal w ++ [?d]) _ _ _] =>
        fold (committed d w)
    end.
    unfold bind at 1.
    rewrite log_user_action_logged with (u := u) by exact Hu.
    reflexivity.
Qed.

(** *** Decrypting a patient *)

(** The button "Decrypt & View" pressed by an admin, the cipher accepting
    both stored ciphertexts. *)
Lemma anonymization_page_decrypt (env : Env) (i : Inputs) (w : World)
      (u : User.t) (p : Patient.t) (name contact : string) :
  user (session w) = Some u -> User.role u = "admin" ->
  apply_click i = false -> decrypt_click i = true ->
  find (fun q => Patient.patient_id q
                 =? selectbox (map Patient.patient_id (patients (db w)))
                              (dec_selected i))
       (patients (db w)) = Some p ->
  Cipher.decrypt (get_cipher env) (Patient.encrypted_name p) = Some name ->
  Cipher.decrypt (get_cipher env) (Patient.encrypted_contact p)
  = Some contact ->
  anonymization_page env i w
  = (Done tt,
     committed
       (DB.add_log (User.username u) (User.role u) "DECRYPT_DATA"
          ("Decrypted patient ID "
           ++ str (selectbox (map Patient.patient_id (patients (db w)))
                             (dec_selected i)))%string
          (now w) (db w))
       (printed [Info "**GDPR Article 4(5)**: Pseudonymisation with separate key management";
                 Success "Decrypted Data:";
                 Write ("**Name:** " ++ name)%string;
                 Write ("**Contact:** " ++ contact)%string] w)).
Proof.
  intros Hu Hr Ha Hd Hp Hn Hc. unfold anonymization_page.
  unfold bind at 1. unfold get_session at 1.
  rewrite (check_role_admin _ u Hu Hr).
  change (negb true) with false. cbv beta iota.
  unfold bind at 1. unfold notify at 1. cbv beta iota. rewrite Ha.
  unfold bind at 1. unfold ret at 1.
  unfold bind at 1. unfold get_all_patients, query, DB.get_all_patients.
  cbn [db].
  assert (Hne : patients (db w) <> []).
  { intros He. rewrite He in Hp. discriminate Hp. }
  rewrite (is_empty_false _ Hne). cbv zeta. rewrite Hd.
  unfold bind at 1. unfold next_with_id. rewrite Hp. unfold ret at 1.
  unfold bind at 1. unfold decrypt_field at 1. rewrite Hn. unfold ret at 1.
  unfold bind at 1. unfold decrypt_field at 1. rewrite Hc. unfold ret at 1.
  unfold bind, notify.
  rewrite log_user_action_logged with (u := u) by exact Hu.
  unfold committed, printed. cbn [db journal session now screen].
  now rewrite <- !app_assoc.
Qed.

(** A ciphertext the cipher rejects stops the page with a decryption error
    before anything is written; only the notice of the page is printed. *)
Lemma anonymization_page_decrypt_fails (env : Env) (i : Inputs) (w : World)
      (u : User.t) (p : Patient.t) :
  user (session w) = Some u -> User.role u = "admin" ->
  apply_click i = false -> decrypt_click i = true ->
  find (fun q => Patient.patient_id q
                 =? selectbox (map Patient.patient_id (patients (db w)))
                              (dec_selected i))
       (patients (db w)) = Some p ->
  Cipher.decrypt (get_cipher env) (Patient.encrypted_name p) = None ->
  anonymization_page env i w
  = (Raised DecryptionError,
     printed [Info "**GDPR Article 4(5)**: Pseudonymisation with separate key management"]
             w).
Proof.
  intros Hu Hr Ha Hd Hp Hn. unfold anonymization_page.
  unfold bind at 1. unfold get_session at 1.
  rewrite (check_role_admin _ u Hu Hr).
  change (negb true) with false. cbv beta iota.
  unfold bind at 1. unfold notify at 1. cbv beta iota. rewrite Ha.
  unfold bind at 1. unfold ret at 1.
  unfold bind at 1. unfold get_all_patients, query, DB.get_all_patients.
  cbn [db].
  assert (Hne : patients (db w) <> []).
  { intros He. rewrite He in Hp. discriminate Hp. }
  rewrite (is_empty_false _ Hne). cbv zeta. rewrite Hd.
  unfold bind at 1. unfold next_with_id. rewrite Hp. unfold ret at 1.
  unfold bind at 1. unfold decrypt_field at 1. rewrite Hn.
  reflexivity.
Qed.

(** ** The audit table over whole runs *)

Lemma audit_extended_refl (w : World) : audit_extended w w.
Proof.
  split; [reflexivity |]. exists []. split; [| constructor].
  now rewrite app_nil_r.
Qed.

Lemma audit_extended_trans (w1 w2 w3 : World) :
  audit_extended w1 w2 -> audit_extended w2 w3 -> audit_extended w1 w3.
Proof.
  intros [Hn1 [l1 [Hl1 Hf1]]] [Hn2 [l2 [Hl2 Hf2]]].
  split; [congruence |].
  exists (l1 ++ l2). split.
  - now rewrite Hl2, Hl1, app_assoc.
  - apply Forall_app. split; [exact Hf1 |].
    rewrite Hn1 in Hf2. exact Hf2.
Qed.

(** A step that leaves the clock and the audit table alone. *)
Lemma audit_extended_same (w w' : World) :
  now w' = now w -> logs (db w') = logs (db w) -> audit_extended w w'.
Proof.
  intros Hn Hl. split; [exact Hn |]. exists []. split; [| constructor].
  now rewrite app_nil_r.
Qed.

Lemma extends_bind {A B} (c : Script A) (k : A -> Script B) :
  extends_audit c -> (forall a, extends_audit (k a)) ->
  extends_audit (bind c k).
Proof.
  intros Hc Hk w. specialize (Hc w). unfold world_after, bind in *.
  destruct (c w) as [[a | | e] w1]; simpl in *; try exact Hc.
  eapply audit_extended_trans; [exact Hc | apply Hk].
Qed.

Lemma extends_ret {A} (a : A) : extends_audit (ret a).
Proof. intros w. apply audit_extended_refl. Qed.

Lemma extends_raise {A} (e : PyError) : extends_audit (@raise A e).
Proof. intros w. apply audit_extended_refl. Qed.

Lemma extends_rerun {A} : extends_audit (@st_rerun A).
Proof. intros w. apply audit_extended_refl. Qed.

Lemma extends_notify (n : Notice) : extends_audit (notify n).
Proof. intros w. now apply audit_extended_same. Qed.

Lemma extends_get_session : extends_audit get_session.
Proof. intros w. apply audit_extended_refl. Qed.

Lemma extends_set_user (u : option User.t) : extends_audit (set_user u).
Proof. intros w. now apply audit_extended_same. Qed.

Lemma extends_set_page (p : string) : extends_audit (set_page p).
Proof. intros w. now apply audit_extended_same. Qed.

Lemma extends_current_user : extends_audit current_user.
Proof.
  intros w. unfold world_after, current_user, bind, get_session.
  destruct (user (session w)); apply audit_extended_refl.
Qed.

Lemma extends_get_all_patients : extends_audit get_all_patients.
Proof. intros w. apply audit_extended_refl. Qed.

Lemma extends_get_all_logs : extends_audit get_all_logs.
Proof. intros w. apply audit_extended_refl. Qed.

Lemma extends_add_patient (n c d an ac en ec : string) :
  extends_audit (add_patient n c d an ac en ec).
Proof. intros w. now apply audit_extended_same. Qed.

Lemma extends_update_patient (pid : Z) (n c d an ac : string) :
  extends_audit (update_patient pid n c d an ac).
Proof.
  intros w. unfold world_after, update_patient, bind, query.
  unfold DB.update_patient.
  destruct (DB.has_patient pid (patients (db w)));
    now apply audit_extended_same.
Qed.

Lemma extends_anonymize_all_patients (env : Env) (c : Cipher.t) :
  extends_audit (anonymize_all_patients env c).
Proof. intros w. now apply audit_extended_same. Qed.

Lemma extends_decrypt_field (c : Cipher.t) (x : string) :
  extends_audit (decrypt_field c x).
Proof.
  intros w. unfold world_after, decrypt_field.
  destruct (Cipher.decrypt c x); apply audit_extended_refl.
Qed.

Lemma extends_next_with_id (sid : Z) (ps : list Patient.t) :
  extends_audit (next_with_id sid ps).
Proof.
  intros w. unfold world_after, next_with_id.
  destruct (find _ ps); apply audit_extended_refl.
Qed.

Lemma extends_log_user_action (action detail : string) :
  In action audit_actions ->
  extends_audit (log_user_action action detail).
Proof.
  intros Hin w. unfold world_after.
  destruct (user (session w)) as [u |] eqn:Hu.
  - rewrite (log_user_action_logged action detail w u Hu). simpl.
    split; [reflexivity |].
    exists [Log.mk (User.username u) (User.role u) action detail (now w)].
    split; [reflexivity |]. constructor; [| constructor]. now split.
  - rewrite (log_user_action_anonymous action detail w Hu).
    apply audit_extended_refl.
Qed.

Ltac known_action :=
  unfold audit_actions;
  repeat first [left; reflexivity | right].

Ltac extends_step :=
  lazymatch goal with
  | |- extends_audit (bind _ _) => apply extends_bind; [| intros ?]
  | |- extends_audit (ret _) => apply extends_ret
  | |- extends_audit (raise _) => apply extends_raise
  | |- extends_audit st_rerun => apply extends_rerun
  | |- extends_audit (notify _) => apply extends_notify
  | |- extends_audit get_session => apply extends_get_session
  | |- extends_audit (set_user _) => apply extends_set_user
  | |- extends_audit (set_page _) => apply extends_set_page
  | |- extends_audit current_user => apply extends_current_user
  | |- extends_audit get_all_patients => apply extends_get_all_patients
  | |- extends_audit get_all_logs => apply extends_get_all_logs
  | |- extends_audit (add_patient _ _ _ _ _ _ _) => apply extends_add_patient
  | |- extends_audit (update_patient _ _ _ _ _ _) =>
      apply extends_update_patient
  | |- extends_audit (anonymize_all_patients _ _) =>
      apply extends_anonymize_all_patients
  | |- extends_audit (decrypt_field _ _) => apply extends_decrypt_field
  | |- extends_audit (next_with_id _ _) => apply extends_next_with_id
  | |- extends_audit (log_user_action _ _) =>
      apply extends_log_user_action; known_action
  | |- extends_audit (if ?b then _ else _) => destruct b
  | |- extends_audit (match ?x with _ => _ end) => destruct x
  | |- extends_audit (let _ := _ in _) => cbv zeta
  end.

Lemma extends_logout : extends_audit logout.
Proof. unfold logout. repeat extends_step. Qed.

Lemma extends_login_page (env : Env) (i : Inputs) :
  extends_audit (login_page env i).
Proof. unfold login_page. repeat extends_step. Qed.

Lemma extends_dashboard_page : extends_audit dashboard_page.
Proof. unfold dashboard_page. repeat extends_step. Qed.

Lemma extends_patients_page (env : Env) (i : Inputs) :
  extends_audit (patients_page env i).
Proof.
  unfold patients_page, view_patients_tab, add_patient_tab,
    update_patient_tab.
  repeat extends_step.
Qed.

Lemma extends_anonymization_page (env : Env) (i : Inputs) :
  extends_audit (anonymization_page env i).
Proof. unfold anonymization_page. repeat extends_step. Qed.

Lemma extends_audit_logs_page : extends_audit audit_logs_page.
Proof. unfold audit_logs_page. repeat extends_step. Qed.

Lemma extends_nav_buttons (pages : list string) (clicked : option string) :
  extends_audit (nav_buttons pages clicked).
Proof.
  induction pages as [|p pages IH]; simpl.
  - apply extends_ret.
  - destruct clicked as [c |]; [destruct (c =? p)%string |];
      try exact IH; repeat extends_step.
Qed.

Lemma extends_main (env : Env) (i : Inputs) : extends_audit (main env i).
Proof.
  unfold main. apply extends_bind; [apply extends_get_session |].
  intros s. destruct (user s) as [u |]; [| apply extends_login_page].
  apply extends_bind; [apply extends_nav_buttons |]. intros _.
  apply extends_bind.
  - destruct (logout_click i); [apply extends_logout | apply extends_ret].
  - intros _. unfold route.
    apply extends_bind; [apply extends_get_session |]. intros s'. cbv zeta.
    destruct (page s' =? "Dashboard")%string;
      [apply extends_dashboard_page |].
    destruct (page s' =? "Patients")%string;
      [apply extends_patients_page |].
    destruct (page s' =? "Anonymization")%string;
      [apply extends_anonymization_page |].
    destruct (page s' =? "Audit Logs")%string;
      [apply extends_audit_logs_page | apply extends_ret].
Qed.

Lemma strongly_sorted_snoc (l : list Z) (t : Z) :
  StronglySorted Z.le l -> Forall (fun x => x <= t) l ->
  StronglySorted Z.le (l ++ [t]).
Proof.
  induction 1 as [|x l Hs IH Hx]; intros Hb; simpl.
  - repeat constructor.
  - inversion Hb as [|? ? Hxt Hlt]; subst. constructor.
    + auto.
    + apply Forall_app. split; [exact Hx | now constructor].
Qed.

Lemma audit_ordered_stamped (lg new : list Log.t) (t : Z) :
  StronglySorted Z.le (map Log.timestamp lg) ->
  Forall (fun e => Log.timestamp e <= t) lg ->
  Forall (fun e => Log.timestamp e = t) new ->
  StronglySorted Z.le (map Log.timestamp (lg ++ new))
  /\ Forall (fun e => Log.timestamp e <= t) (lg ++ new).
Proof.
  intros Hs Hb Hn. revert lg Hs Hb.
  induction Hn as [|e new He _ IH]; intros lg Hs Hb.
  - now rewrite app_nil_r.
  - change (lg ++ e :: new) with (lg ++ [e] ++ new). rewrite app_assoc.
    apply IH.
    + rewrite map_app. simpl. apply strongly_sorted_snoc; [exact Hs |].
      rewrite Forall_map, He. exact Hb.
    + apply Forall_app. split; [exact Hb |]. constructor; [lia | constructor].
Qed.

Lemma audit_ordered_extended (w w' : World) :
  audit_ordered w -> audit_extended w w' -> audit_ordered w'.
Proof.
  intros [Hs Hb] [Hn [new [Hl Hf]]]. unfold audit_ordered.
  rewrite Hl, Hn. apply audit_ordered_stamped; [exact Hs | exact Hb |].
  eapply Forall_impl; [| exact Hf]. now intros e [He _].
Qed.

Lemma audit_ordered_advance (dt : N) (w : World) :
  audit_ordered w -> audit_ordered (advance dt w).
Proof.
  intros [Hs Hb]. split; [exact Hs |]. simpl.
  eapply Forall_impl; [| exact Hb]. simpl. intros e He. lia.
Qed.

(** Over any sequence of runs the audit table grows at its end only, by
    entries with a known action, and stays in timestamp order. *)
Lemma runs_audit (env : Env) (l : list (N * Inputs)) (w : World) :
  audit_ordered w ->
  audit_ordered (runs env l w)
  /\ exists new : list Log.t,
       logs (db (runs env l w)) = logs (db w) ++ new
       /\ Forall (fun e => In (Log.action e) audit_actions) new.
Proof.
  revert w. induction l as [|[dt i] l IH]; intros w Ho; simpl.
  - split; [exact Ho |]. exists []. split; [| constructor].
    now rewrite app_nil_r.
  - pose proof (extends_main env i (advance dt w)) as He.
    assert (Ho' : audit_ordered (world_after (main env i) (advance dt w))).
    { eapply audit_ordered_extended; [| exact He].
      now apply audit_ordered_advance. }
    destruct (IH _ Ho') as [Hfin [new2 [Hl2 Hf2]]].
    split; [exact Hfin |].
    destruct He as [_ [new1 [Hl1 Hf1]]]. simpl in Hl1.
    exists (new1 ++ new2). split.
    + now rewrite Hl2, Hl1, app_assoc.
    + apply Forall_app. split; [| exact Hf2].
      eapply Forall_impl; [| exact Hf1]. now intros e [_ Ha].
Qed.

Lemma update_patient_keeps_logs (pid : Z) (n c d an ac : string)
      (d0 d1 : Database) :
  DB.update_patient pid n c d an ac d0 = Some d1 -> logs d1 = logs d0.
Proof.
  unfold DB.update_patient.
  destruct (DB.has_patient pid (patients d0)); [| discriminate].
  intros H. injection H as <-. reflexivity.
Qed.

(** C2, as the claim states it, fails.  An admin looking at a non-empty
    patient table in the anonymized view mode, a sensitive read that
    succeeds, adds no audit entry; and one successful login leaves two
    entries, since the rerun it asks for renders the dashboard, which is
    logged as well. *)
Lemma audit_entries_differ_from_operations :
  outcome_of (main demo_env idle) (ward admin_user "Patients") = Done tt
  /\ appended (main demo_env idle) (ward admin_user "Patients") = []
  /\ map Log.action
       (logs (db (world_after
                    (interaction demo_env (login_as "admin" "admin123"))
                    fresh_world)))
     = ["LOGIN"; "VIEW_DASHBOARD"].
Proof. repeat split. Qed.

(** C2, amended.  Each of these, when it succeeds, writes exactly one audit
    entry for the acting user, after its own writes: login, add patient,
    update patient, anonymize-all, decrypt, the admin's raw-data view, the
    doctor's anonymized view, logout.  A rejected or incomplete login, an
    add with a missing field, the add and update tabs for a role outside
    admin and receptionist, and the anonymization and audit pages for a role
    other than admin write nothing.  Over any sequence of runs the audit
    table only grows at its end, by entries whose action is one of the ten
    tags of the script (dashboard and audit-log views among them), and with
    a clock that never goes back it stays in non-decreasing timestamp
    order. *)
Theorem audit_entry_after_each_logged_operation (env : Env) :
  (forall i w u,
      login_submit i = true ->
      truthy (login_username i) && truthy (login_password i) = true ->
      authenticate_user env (login_username i) (login_password i) = Some u ->
      logged_last (login_page env i) w u "LOGIN")
  /\ (forall i w u,
         user (session w) = Some u ->
         str_in (User.role u) ["admin"; "receptionist"] = true ->
         add_submit i = true ->
         truthy (add_name i) && truthy (add_contact i)
         && truthy (add_diagnosis i) = true ->
         logged_last (add_patient_tab env i u) w u "ADD_PATIENT")
  /\ (forall i w u,
         user (session w) = Some u ->
         str_in (User.role u) ["admin"; "receptionist"] = true ->
         patients (db w) <> [] ->
         upd_submit i = true ->
         logged_last (update_patient_tab env i u) w u "UPDATE_PATIENT")
  /\ (forall i w u,
         user (session w) = Some u -> User.role u = "admin" ->
         apply_click i = true ->
         logged_last (anonymization_page env i) w u "ANONYMIZE_ALL")
  /\ (forall i w u p name contact,
         user (session w) = Some u -> User.role u = "admin" ->
         apply_click i = false -> decrypt_click i = true ->
         find (fun q => Patient.patient_id q
                        =? selectbox (map Patient.patient_id
                                          (patients (db w)))
                                     (dec_selected i))
              (patients (db w)) = Some p ->
         Cipher.decrypt (get_cipher env) (Patient.encrypted_name p)
         = Some name ->
         Cipher.decrypt (get_cipher env) (Patient.encrypted_contact p)
         = Some contact ->
         logged_last (anonymization_page env i) w u "DECRYPT_DATA")
  /\ (forall i w u,
         user (session w) = Some u -> User.role u = "admin" ->
         patients (db w) <> [] -> view_mode i = RawData ->
         logged_last (view_patients_tab i u) w u "VIEW_RAW_DATA")
  /\ (forall i w u,
         user (session w) = Some u -> User.role u = "doctor" ->
         patients (db w) <> [] ->
         logged_last (view_patients_tab i u) w u "VIEW_ANONYMIZED_DATA")
  /\ (forall w u,
         user (session w) = Some u -> logged_last logout w u "LOGOUT")
  /\ (forall i w,
         truthy (login_username i) && truthy (login_password i) = false
         \/ authenticate_user env (login_username i) (login_password i)
            = None ->
         writes_nothing (login_page env i) w)
  /\ (forall i w u,
         truthy (add_name i) && truthy (add_contact i)
         && truthy (add_diagnosis i) = false ->
         writes_nothing (add_patient_tab env i u) w)
  /\ (forall i w u,
         str_in (User.role u) ["admin"; "receptionist"] = false ->
         writes_nothing (add_patient_tab env i u) w
         /\ writes_nothing (update_patient_tab env i u) w)
  /\ (forall i w,
         check_role (session w) ["admin"] = false ->
         writes_nothing (anonymization_page env i) w
         /\ writes_nothing audit_logs_page w)
  /\ (forall l w,
         audit_ordered w ->
         audit_ordered (runs env l w)
         /\ exists new : list Log.t,
              logs (db (runs env l w)) = logs (db w) ++ new
              /\ Forall (fun e => In (Log.action e) audit_actions) new).
Proof.
  repeat apply conj.
  - intros i w u Hs Ht Ha. unfold logged_last, world_after.
    rewrite (login_page_success env i w u Hs Ht Ha). cbn [snd].
    eexists. exists []. repeat split. constructor.
  - intros i w u Hu Hr Hs Ht. unfold logged_last, world_after.
    rewrite (add_patient_tab_run env i u w Hu Hr Hs Ht). cbn [snd].
    eexists. eexists [_; _]. split; [| split].
    + simpl. rewrite <- !app_assoc. reflexivity.
    + repeat constructor.
    + reflexivity.
  - intros i w u Hu Hr Hne Hs. unfold logged_last, world_after.
    destruct (update_patient_tab_run env i u w Hu Hr Hne Hs)
      as [p [d [_ [Hd Hrun]]]].
    rewrite Hrun. cbn [snd].
    eexists. exists [d]. split; [| split].
    + simpl. rewrite <- !app_assoc. reflexivity.
    + constructor; [| constructor].
      exact (update_patient_keeps_logs _ _ _ _ _ _ _ _ Hd).
    + reflexivity.
  - intros i w u Hu Hr Ha. unfold logged_last, world_after.
    rewrite (anonymization_page_apply env i w u Hu Hr Ha). cbn [snd].
    eexists. eexists [_]. split; [| split].
    + simpl. rewrite <- !app_assoc. reflexivity.
    + repeat constructor.
    + reflexivity.
  - intros i w u p name contact Hu Hr Ha Hd Hp Hn Hc.
    unfold logged_last, world_after.
    rewrite (anonymization_page_decrypt env i w u p name contact
               Hu Hr Ha Hd Hp Hn Hc). cbn [snd].
    eexists. exists []. repeat split. constructor.
  - intros i w u Hu Hr Hne Hv. unfold logged_last, world_after.
    rewrite (view_patients_tab_run i u w Hu), (is_empty_false _ Hne), Hr, Hv.
    cbn [String.eqb Ascii.eqb Bool.eqb andb snd].
    eexists. exists []. repeat split. constructor.
  - intros i w u Hu Hr Hne. unfold logged_last, world_after.
    rewrite (view_patients_tab_run i u w Hu), (is_empty_false _ Hne), Hr.
    simpl.
    eexists. exists []. repeat split. constructor.
  - intros w u Hu. unfold logged_last, world_after.
    rewrite (logout_run w u Hu). cbn [snd].
    eexists. exists []. repeat split. constructor.
  - intros i w H. unfold writes_nothing, world_after, login_page.
    destruct (login_submit i); [| now split].
    destruct H as [Ht | Ha].
    + rewrite Ht. now split.
    + rewrite Ha.
      destruct (truthy (login_username i) && truthy (login_password i));
        now split.
  - intros i w u Ht. unfold writes_nothing, world_after, add_patient_tab.
    rewrite Ht.
    destruct (str_in (User.role u) ["admin"; "receptionist"]);
      [destruct (add_submit i) |]; now split.
  - intros i w u Hr. unfold writes_nothing, world_after.
    rewrite (add_patient_tab_denied env i u w Hr).
    rewrite (update_patient_tab_denied env i u w Hr). now repeat split.
  - intros i w Hc. unfold writes_nothing, world_after.
    rewrite (anonymization_page_denied env i w Hc).
    unfold audit_logs_page, bind, get_session. rewrite Hc. now repeat split.
  - intros l w Ho. exact (runs_audit env l w Ho).
Qed.

Lemma audit_entry_after_each_logged_operation_witness :
  logged_last (login_page demo_env (login_as "admin" "admin123"))
              fresh_world admin_user "LOGIN".
Proof.
  apply (proj1 (audit_entry_after_each_logged_operation demo_env)
               (login_as "admin" "admin123") fresh_world admin_user);
    reflexivity.
Defined.

(** * The rest of the script *)

(** ** Relations kept along a computation *)

Section Along.

Variable R : World -> World -> Prop.
Hypothesis R_refl : forall w, R w w.
Hypothesis R_trans : forall w1 w2 w3, R w1 w2 -> R w2 w3 -> R w1 w3.

Lemma along_bind {A B} (c : Script A) (k : A -> Script B) :
  along R c -> (forall a, along R (k a)) -> along R (bind c k).
Proof.
  intros Hc Hk w. specialize (Hc w). unfold world_after, bind in *.
  destruct (c w) as [[a | | e] w1]; simpl in *; try exact Hc.
  eapply R_trans; [exact Hc | apply Hk].
Qed.

Lemma along_ret {A} (a : A) : along R (ret a).
Proof. intros w. apply R_refl. Qed.

Lemma along_raise {A} (e : PyError) : along R (@raise A e).
Proof. intros w. apply R_refl. Qed.

Lemma along_rerun {A} : along R (@st_rerun A).
Proof. intros w. apply R_refl. Qed.

Lemma along_get_session : along R get_session.
Proof. intros w. apply R_refl. Qed.

Lemma along_current_user : along R current_user.
Proof.
  intros w. unfold world_after, current_user, bind, get_session.
  destruct (user (session w)); apply R_refl.
Qed.

Lemma along_get_all_patients : along R get_all_patients.
Proof. intros w. apply R_refl. Qed.

Lemma along_get_all_logs : along R get_all_logs.
Proof. intros w. apply R_refl. Qed.

Lemma along_next_with_id (sid : Z) (ps : list Patient.t) :
  along R (next_with_id sid ps).
Proof.
  intros w. unfold world_after, next_with_id.
  destruct (find _ ps); apply R_refl.
Qed.

Lemma along_decrypt_field (c : Cipher.t) (x : string) :
  along R (decrypt_field c x).
Proof.
  intros w. unfold world_after, decrypt_field.
  destruct (Cipher.decrypt c x); apply R_refl.
Qed.

End Along.

(** ** Computations that leave the table, the session and the clock *)

Lemma quiet_refl (w : World) : quiet w w.
Proof. now repeat split. Qed.

Lemma quiet_trans (w1 w2 w3 : World) :
  quiet w1 w2 -> quiet w2 w3 -> quiet w1 w3.
Proof.
  intros [Hp1 [Hs1 Hn1]] [Hp2 [Hs2 Hn2]]. repeat split; congruence.
Qed.

Lemma quiet_notify (n : Notice) : along quiet (notify n).
Proof. intros w. now repeat split. Qed.

Lemma quiet_log_user_action (action detail : string) :
  along quiet (log_user_action action detail).
Proof.
  intros w. unfold world_after.
  destruct (user (session w)) as [u |] eqn:Hu.
  - rewrite (log_user_action_logged action detail w u Hu). now repeat split.
  - rewrite (log_user_action_anonymous action detail w Hu). apply quiet_refl.
Qed.

Ltac quiet_step :=
  lazymatch goal with
  | |- along quiet (bind _ _) =>
      apply (along_bind quiet quiet_trans); [| intros ?]
  | |- along quiet (ret _) => apply (along_ret quiet quiet_refl)
  | |- along quiet (raise _) => apply (along_raise quiet quiet_refl)
  | |- along quiet st_rerun => apply (along_rerun quiet quiet_refl)
  | |- along quiet get_session => apply (along_get_session quiet quiet_refl)
  | |- along quiet current_user => apply (along_current_user quiet quiet_refl)
  | |- along quiet get_all_patients =>
      apply (along_get_all_patients quiet quiet_refl)
  | |- along quiet get_all_logs => apply (along_get_all_logs quiet quiet_refl)
  | |- along quiet (next_with_id _ _) =>
      apply (along_next_with_id quiet quiet_refl)
  | |- along quiet (decrypt_field _ _) =>
      apply (along_decrypt_field quiet quiet_refl)
  | |- along quiet (notify _) => apply quiet_notify
  | |- along quiet (log_user_action _ _) => apply quiet_log_user_action
  | |- along quiet (if ?b then _ else _) => destruct b
  | |- along quiet (match ?x with _ => _ end) => destruct x
  | |- along quiet (let _ := _ in _) => cbv zeta
  end.

Lemma quiet_view_patients_tab (i : Inputs) (u : User.t) :
  along quiet (view_patients_tab i u).
Proof. unfold view_patients_tab. repeat quiet_step. Qed.

Lemma quiet_audit_logs_page : along quiet audit_logs_page.
Proof. unfold audit_logs_page. repeat quiet_step. Qed.

(** ** What each page can end with *)

Lemma check_role_admin_inv (s : Session) :
  check_role s ["admin"] = true ->
  exists u, user s = Some u /\ User.role u = "admin".
Proof.
  unfold check_role. destruct (user s) as [u |]; [| discriminate].
  simpl. rewrite orb_false_r. intros H. exists u. split; [reflexivity |].
  now apply String.eqb_eq.
Qed.

Lemma view_patients_tab_done (i : Inputs) (u : User.t) (w : World) :
  user (session w) = Some u ->
  exists w1, view_patients_tab i u w = (Done tt, w1) /\ quiet w w1.
Proof.
  intros Hu. pose proof (quiet_view_patients_tab i u w) as Hq.
  unfold world_after in Hq.
  rewrite (view_patients_tab_run i u w Hu) in *.
  destruct (is_empty (patients (db w)));
    [| destruct (User.role u =? "admin")%string;
       [destruct (view_mode i) | destruct (User.role u =? "doctor")%string]];
    eexists; (split; [reflexivity | exact Hq]).
Qed.

Lemma add_patient_tab_cases (env : Env) (i : Inputs) (u : User.t)
      (w : World) :
  user (session w) = Some u ->
  exists o w',
    add_patient_tab env i u w = (o, w')
    /\ session w' = session w /\ now w' = now w
    /\ ((o = Done tt /\ patients (db w') = patients (db w))
        \/ (o = Rerun
            /\ str_in (User.role u) ["admin"; "receptionist"] = true
            /\ patients (db w')
               = patients (db w)
                 ++ [add_form_record env i
                       (DB.next_patient_id (patients (db w)))
                       (mask_name env (DB.next_patient_id (patients (db w))))
                       (now w)])).
Proof.
  intros Hu.
  destruct (str_in (User.role u) ["admin"; "receptionist"]) eqn:Hr.
  - destruct (add_submit i) eqn:Hs.
    + destruct (truthy (add_name i) && truthy (add_contact i)
                && truthy (add_diagnosis i)) eqn:Ht.
      * rewrite (add_patient_tab_run env i u w Hu Hr Hs Ht).
        eexists. eexists. split; [reflexivity |].
        repeat split. right. repeat split.
      * unfold add_patient_tab. rewrite Hr, Hs, Ht.
        eexists. eexists. split; [reflexivity |]. repeat split. now left.
    + unfold add_patient_tab. rewrite Hr, Hs.
      eexists. eexists. split; [reflexivity |]. repeat split. now left.
  - rewrite (add_patient_tab_denied env i u w Hr).
    eexists. eexists. split; [reflexivity |]. repeat split. now left.
Qed.

Lemma update_patient_rows (env : Env) (sid : Z) (n c d : string)
      (d0 d1 : Database) :
  DB.update_patient sid n c d (mask_name env sid) (mask_contact env c) d0
  = Some d1 ->
  patients d1 = map (update_row env sid n c d) (patients d0).
Proof.
  unfold DB.update_patient.
  destruct (DB.has_patient sid (patients d0)); [| discriminate].
  intros H. injection H as <-. reflexivity.
Qed.

Lemma update_patient_tab_cases (env : Env) (i : Inputs) (u : User.t)
      (w : World) :
  user (session w) = Some u ->
  exists o w',
    update_patient_tab env i u w = (o, w')
    /\ session w' = session w /\ now w' = now w
    /\ ((o = Done tt /\ patients (db w') = patients (db w))
        \/ (o = Rerun
            /\ str_in (User.role u) ["admin"; "receptionist"] = true
            /\ exists sid name contact diagnosis,
                 In sid (map Patient.patient_id (patients (db w)))
                 /\ patients (db w')
                    = map (update_row env sid name contact diagnosis)
                          (patients (db w)))).
Proof.
  intros Hu.
  destruct (str_in (User.role u) ["admin"; "receptionist"]) eqn:Hr.
  - destruct (patients (db w)) as [|p0 ps] eqn:Hps.
    + unfold update_patient_tab. rewrite Hr.
      unfold bind at 1. unfold get_all_patients, query, DB.get_all_patients.
      rewrite Hps. simpl is_empty. cbv iota.
      eexists. eexists. split; [reflexivity |]. repeat split.
      left. split; [reflexivity |]. simpl. now rewrite Hps.
    + assert (Hne : patients (db w) <> []) by (rewrite Hps; discriminate).
      rewrite <- Hps.
      destruct (upd_submit i) eqn:Hs.
      * destruct (update_patient_tab_run env i u w Hu Hr Hne Hs)
          as [p [d [_ [Hd Hrun]]]].
        rewrite Hrun. eexists. eexists. split; [reflexivity |].
        repeat split. right. repeat split.
        eexists. eexists. eexists. eexists. split.
        -- apply selectbox_in. rewrite Hps. discriminate.
        -- simpl. exact (update_patient_rows _ _ _ _ _ _ _ Hd).
      * destruct (selected_patient_found (patients (db w)) (upd_selected i)
                    Hne) as [p Hp].
        unfold update_patient_tab. rewrite Hr.
        unfold bind at 1. unfold get_all_patients, query, DB.get_all_patients.
        rewrite (is_empty_false _ Hne). cbv zeta.
        unfold bind at 1. unfold next_with_id. rewrite Hp. unfold ret at 1.
        rewrite Hs.
        eexists. eexists. split; [reflexivity |]. repeat split. now left.
  - rewrite (update_patient_tab_denied env i u w Hr).
    eexists. eexists. split; [reflexivity |]. repeat split. now left.
Qed.

Lemma patients_page_cases (env : Env) (i : Inputs) (w : World) (u : User.t) :
  user (session w) = Some u ->
  exists o w',
    patients_page env i w = (o, w')
    /\ session w' = session w /\ now w' = now w
    /\ ((o = Done tt /\ patients (db w') = patients (db w))
        \/ (o = Rerun
            /\ str_in (User.role u) ["admin"; "receptionist"] = true
            /\ (patients (db w')
                = patients (db w)
                  ++ [add_form_record env i
                        (DB.next_patient_id (patients (db w)))
                        (mask_name env
                           (DB.next_patient_id (patients (db w))))
                        (now w)]
                \/ exists sid name contact diagnosis,
                     In sid (map Patient.patient_id (patients (db w)))
                     /\ patients (db w')
                        = map (update_row env sid name contact diagnosis)
                              (patients (db w))))).
Proof.
  intros Hu. unfold patients_page.
  unfold bind at 1. unfold current_user, bind at 1, get_session.
  rewrite Hu. unfold ret at 1.
  destruct (view_patients_tab_done i u w Hu) as [w1 [Hv [Hp1 [Hs1 Hn1]]]].
  unfold bind at 1. rewrite Hv.
  assert (Hu1 : user (session w1) = Some u) by now rewrite Hs1.
  destruct (add_patient_tab_cases env i u w1 Hu1)
    as [o2 [w2 [Ha [Hs2 [Hn2 Hc2]]]]].
  unfold bind at 1. rewrite Ha.
  destruct Hc2 as [[-> Hp2] | [-> [Hr Hp2]]].
  - assert (Hu2 : user (session w2) = Some u) by now rewrite Hs2.
    destruct (update_patient_tab_cases env i u w2 Hu2)
      as [o3 [w3 [Hup [Hs3 [Hn3 Hc3]]]]].
    rewrite Hup. exists o3, w3. split; [reflexivity |].
    split; [congruence |]. split; [congruence |].
    destruct Hc3 as [[-> Hp3] | [-> [Hr [sid [n [c [d [Hin Hp3]]]]]]]].
    + left. split; [reflexivity | congruence].
    + right. split; [reflexivity |]. split; [exact Hr |]. right.
      exists sid, n, c, d. rewrite Hp2, Hp1 in Hin.
      rewrite Hp3, Hp2, Hp1. now split.
  - exists Rerun, w2. split; [reflexivity |].
    split; [congruence |]. split; [congruence |].
    right. split; [reflexivity |]. split; [exact Hr |]. left.
    rewrite Hp2, Hp1, Hn1. reflexivity.
Qed.

Lemma anonymization_page_cases (env : Env) (i : Inputs) (w : World) :
  exists o w',
    anonymization_page env i w = (o, w')
    /\ session w' = session w /\ now w' = now w
    /\ ((patients (db w') = patients (db w)
         /\ (o = Done tt
             \/ (o = Raised DecryptionError
                 /\ decrypt_click i = true
                 /\ check_role (session w) ["admin"] = true
                 /\ db w' = db w)))
        \/ (o = Rerun
            /\ check_role (session w) ["admin"] = true
            /\ patients (db w')
               = map (DB.anonymize (mask_name env) (mask_contact env)
                                   (Cipher.encrypt (get_cipher env)))
                     (patients (db w)))).
Proof.
  destruct (check_role (session w) ["admin"]) eqn:Hc.
  - destruct (check_role_admin_inv _ Hc) as [u [Hu Hr]].
    destruct (apply_click i) eqn:Ha.
    + rewrite (anonymization_page_apply env i w u Hu Hr Ha).
      eexists. eexists. split; [reflexivity |]. repeat split.
      right. repeat split.
    + unfold anonymization_page.
      unfold bind at 1. unfold get_session at 1. rewrite Hc.
      change (negb true) with false. cbv beta iota.
      unfold bind at 1. unfold notify at 1. cbv beta iota. rewrite Ha.
      unfold bind at 1. unfold ret at 1.
      unfold bind at 1. unfold get_all_patients, query, DB.get_all_patients.
      cbn [db].
      destruct (patients (db w)) as [|p0 ps] eqn:Hps.
      { simpl is_empty. cbv iota. eexists. eexists.
        split; [reflexivity |]. repeat split. left. cbn [db].
        split; [exact Hps | now left]. }
      assert (Hne : patients (db w) <> []) by (rewrite Hps; discriminate).
      rewrite <- Hps. rewrite (is_empty_false _ Hne). cbv zeta.
      destruct (decrypt_click i) eqn:Hd.
      2:{ eexists. eexists. split; [reflexivity |]. repeat split.
          left. auto. }
      destruct (selected_patient_found (patients (db w)) (dec_selected i) Hne)
        as [p Hp].
      unfold bind at 1. unfold next_with_id. rewrite Hp. unfold ret at 1.
      unfold bind at 1. unfold decrypt_field at 1.
      destruct (Cipher.decrypt (get_cipher env) (Patient.encrypted_name p))
        as [name |].
      2:{ eexists. eexists. split; [reflexivity |]. repeat split.
          left. split; [reflexivity |]. right. auto. }
      unfold ret at 1. unfold bind at 1. unfold decrypt_field at 1.
      destruct (Cipher.decrypt (get_cipher env)
                               (Patient.encrypted_contact p))
        as [contact |].
      2:{ eexists. eexists. split; [reflexivity |]. repeat split.
          left. split; [reflexivity |]. right. auto. }
      unfold ret at 1. unfold bind, notify.
      rewrite log_user_action_logged with (u := u) by exact Hu.
      eexists. eexists. split; [reflexivity |]. repeat split.
      left. split; [reflexivity |]. now left.
  - rewrite (anonymization_page_denied env i w Hc).
    eexists. eexists. split; [reflexivity |]. repeat split.
    left. split; [reflexivity |]. now left.
Qed.

Lemma nav_buttons_cases (pages : list string) (clicked : option string)
      (w : World) :
  nav_buttons pages clicked w = (Done tt, w)
  \/ exists p,
       In p pages /\ clicked = Some p
       /\ nav_buttons pages clicked w
          = (Rerun,
             mkWorld (db w) (journal w)
                     (mkSession (user (session w)) p
                                (start_time (session w)))
                     (now w) (screen w)).
Proof.
  induction pages as [|p pages IH]; simpl.
  - now left.
  - destruct clicked as [c |].
    + destruct (String.eqb_spec c p) as [-> | Hne].
      * right. exists p. repeat split. now left.
      * destruct IH as [IH | [q [Hq [Hc IH]]]]; [now left |].
        right. exists q. repeat split; auto.
    + destruct IH as [IH | [q [Hq [Hc IH]]]]; [now left | discriminate].
Qed.

Lemma audit_logs_page_done (w : World) :
  exists w', audit_logs_page w = (Done tt, w') /\ quiet w w'.
Proof.
  pose proof (quiet_audit_logs_page w) as Hq. unfold world_after in Hq.
  destruct (check_role (session w) ["admin"]) eqn:Hc.
  - destruct (check_role_admin_inv _ Hc) as [u [Hu Hr]].
    rewrite (audit_logs_page_run w u Hu Hr) in *.
    destruct (is_empty (logs (db w))); eexists; (split; [reflexivity |]);
      exact Hq.
  - rewrite (audit_logs_page_denied w Hc) in *.
    eexists. split; [reflexivity | exact Hq].
Qed.

Lemma login_page_cases (env : Env) (i : Inputs) (w : World) :
  exists o w',
    login_page env i w = (o, w')
    /\ patients (db w') = patients (db w) /\ now w' = now w
    /\ ((o = Done tt /\ db w' = db w /\ journal w' = journal w
         /\ session w' = session w)
        \/ (o = Rerun
            /\ login_submit i = true
            /\ exists u,
                 authenticate_user env (login_username i) (login_password i)
                 = Some u
                 /\ session w'
                    = mkSession (Some u) "Dashboard" (start_time (session w))
                 /\ logs (db w')
                    = logs (db w)
                      ++ [log_entry u "LOGIN"
                            ("User " ++ login_username i ++ " logged in")%string
                            (now w)])).
Proof.
  destruct (login_submit i) eqn:Hs.
  - destruct (truthy (login_username i) && truthy (login_password i)) eqn:Ht.
    + destruct (authenticate_user env (login_username i) (login_password i))
        as [u |] eqn:Ha.
      * rewrite (login_page_success env i w u Hs Ht Ha).
        eexists. eexists. split; [reflexivity |]. repeat split.
        right. split; [reflexivity |]. split; [reflexivity |].
        exists u. repeat split.
      * rewrite (login_page_rejected env i w Hs Ht Ha).
        eexists. eexists. split; [reflexivity |]. repeat split.
        left. repeat split.
    + rewrite (login_page_incomplete env i w Hs Ht).
      eexists. eexists. split; [reflexivity |]. repeat split.
      left. repeat split.
  - unfold login_page. rewrite Hs.
    eexists. eexists. split; [reflexivity |]. repeat split.
    left. repeat split.
Qed.

(** ** What one run can end with *)

(** Every run ends in one of these ways: the table kept, with a normal
    end, a rerun, or the decryption error of the admin's decrypt button; or
    the table changed by one step, with a rerun, in a session of an admin or
    a receptionist. *)
Lemma main_cases (env : Env) (i : Inputs) (w : World) :
  exists o w',
    main env i w = (o, w')
    /\ now w' = now w
    /\ TableStep env i w w'
    /\ ((patients (db w') = patients (db w)
         /\ (o = Done tt \/ o = Rerun
             \/ (o = Raised DecryptionError
                 /\ decrypt_click i = true
                 /\ check_role (session w) ["admin"] = true
                 /\ page (session w) = "Anonymization"
                 /\ db w' = db w)))
        \/ (o = Rerun
            /\ exists u,
                 user (session w) = Some u
                 /\ str_in (User.role u) ["admin"; "receptionist"] = true)).
Proof.
  unfold main. unfold bind at 1. unfold get_session at 1.
  destruct (user (session w)) as [u |] eqn:Hu.
  - unfold bind at 1.
    destruct (nav_buttons_cases (sidebar_pages u) (nav_click i) w)
      as [Hnav | [p [_ [_ Hnav]]]]; rewrite Hnav.
    2:{ eexists. eexists. split; [reflexivity |]. split; [reflexivity |].
        split; [now apply table_kept |]. left. auto. }
    unfold bind at 1. destruct (logout_click i).
    { rewrite (logout_run w u Hu).
      eexists. eexists. split; [reflexivity |]. split; [reflexivity |].
      split; [now apply table_kept |]. left. auto. }
    unfold ret at 1. unfold route, bind at 1, get_session. cbv zeta.
    destruct (page (session w) =? "Dashboard")%string.
    { rewrite (dashboard_page_run w u Hu).
      eexists. eexists. split; [reflexivity |]. split; [reflexivity |].
      split; [now apply table_kept |]. left. auto. }
    destruct (page (session w) =? "Patients")%string.
    { destruct (patients_page_cases env i w u Hu)
        as [o [w' [Hrun [_ [Hn Hc]]]]].
      rewrite Hrun. exists o, w'. split; [reflexivity |].
      split; [exact Hn |].
      destruct Hc as [[-> Hp] | [-> [Hr [Hp | [sid [n [c [d [Hin Hp]]]]]]]]].
      - split; [now apply table_kept |]. left. auto.
      - split; [now apply table_added |]. right. split; [reflexivity |].
        now exists u.
      - split; [now apply (table_updated env i w w' sid n c d) |].
        right. split; [reflexivity |]. now exists u. }
    destruct (String.eqb_spec (page (session w)) "Anonymization")
      as [Hpage |_].
    { destruct (anonymization_page_cases env i w)
        as [o [w' [Hrun [_ [Hn Hc]]]]].
      rewrite Hrun. exists o, w'. split; [reflexivity |].
      split; [exact Hn |].
      destruct Hc as [[Hp [-> | [-> [Hd [Hc Hdb]]]]] | [-> [Hc Hp]]].
      - split; [now apply table_kept |]. left. auto.
      - split; [now apply table_kept |]. left.
        split; [exact Hp |]. right. right. auto.
      - split; [now apply table_anonymized |]. right.
        split; [reflexivity |].
        destruct (check_role_admin_inv _ Hc) as [u' [Hu' Hr]].
        exists u'. split; [congruence |]. now rewrite Hr. }
    destruct (page (session w) =? "Audit Logs")%string.
    { destruct (audit_logs_page_done w) as [w' [Hrun [Hp [_ Hn]]]].
      rewrite Hrun. eexists. eexists. split; [reflexivity |].
      split; [exact Hn |]. split; [now apply table_kept |]. left. auto. }
    eexists. eexists. split; [reflexivity |]. split; [reflexivity |].
    split; [now apply table_kept |]. left. auto.
  - destruct (login_page_cases env i w) as [o [w' [Hrun [Hp [Hn Hc]]]]].
    rewrite Hrun. exists o, w'. split; [reflexivity |].
    split; [exact Hn |]. split; [now apply table_kept |]. left.
    split; [exact Hp |].
    destruct Hc as [[-> _] | [-> _]]; auto.
Qed.

(** ** Acting under the session's role *)

Lemma acts_as_refl (u : User.t) (w : World) : acts_as u w w.
Proof.
  intros Hs. split; [exact Hs |]. split.
  - exists []. split; [now rewrite app_nil_r | constructor].
  - exists []. split; [now rewrite app_nil_r | constructor].
Qed.

Lemma acts_as_trans (u : User.t) (w1 w2 w3 : World) :
  acts_as u w1 w2 -> acts_as u w2 w3 -> acts_as u w1 w3.
Proof.
  intros H12 H23 Hs1.
  destruct (H12 Hs1) as [Hs2 [[l1 [Hl1 Hf1]] [n1 [Hn1 Hg1]]]].
  destruct (H23 Hs2) as [Hs3 [[l2 [Hl2 Hf2]] [n2 [Hn2 Hg2]]]].
  split; [exact Hs3 |]. split.
  - exists (l1 ++ l2). split; [now rewrite Hl2, Hl1, app_assoc |].
    apply Forall_app. now split.
  - exists (n1 ++ n2). split; [now rewrite Hn2, Hn1, app_assoc |].
    apply Forall_app. now split.
Qed.

(** A step that keeps the session's user, the audit table and the screen. *)
Lemma acts_as_silent (u : User.t) (w w' : World) :
  user (session w') = user (session w) ->
  logs (db w') = logs (db w) -> screen w' = screen w ->
  acts_as u w w'.
Proof.
  intros Hu Hl Hn Hs. split.
  - unfold session_of in *. now rewrite Hu.
  - split; exists []; (split; [now rewrite app_nil_r | constructor]).
Qed.

Lemma acts_bind {A B} (u : User.t) (c : Script A) (k : A -> Script B) :
  along (acts_as u) c -> (forall a, along (acts_as u) (k a)) ->
  along (acts_as u) (bind c k).
Proof. apply along_bind. apply acts_as_trans. Qed.

(** The session read is the session of the world, hence [u]'s or nobody's
    where it matters. *)
Lemma acts_bind_session {B} (u : User.t) (k : Session -> Script B) :
  (forall s, session_of u s -> along (acts_as u) (k s)) ->
  along (acts_as u) (bind get_session k).
Proof. intros Hk w Hs. exact (Hk (session w) Hs w Hs). Qed.

(** The user read is [u]. *)
Lemma acts_bind_current_user {B} (u : User.t) (k : User.t -> Script B) :
  along (acts_as u) (k u) -> along (acts_as u) (bind current_user k).
Proof.
  intros Hk w. unfold world_after.
  assert (E : bind current_user k w
              = match user (session w) with
                | Some u0 => k u0 w
                | None => (Raised TypeError, w)
                end).
  { unfold current_user, bind, get_session, ret, raise.
    now destruct (user (session w)). }
  rewrite E. intros Hs. destruct Hs as [Hs | Hs]; rewrite Hs.
  - apply (Hk w). now left.
  - apply acts_as_refl. now right.
Qed.

Lemma acts_notify (u : User.t) (n : Notice) :
  (is_write n = true -> (User.role u =? "admin")%string = true) ->
  along (acts_as u) (notify n).
Proof.
  intros Hn w Hs. split; [exact Hs |]. split.
  - exists []. split; [now rewrite app_nil_r | constructor].
  - exists [n]. split; [reflexivity |]. constructor; [exact Hn | constructor].
Qed.

Lemma acts_log_user_action (u : User.t) (action detail : string) :
  permitted (User.role u) action = true ->
  along (acts_as u) (log_user_action action detail).
Proof.
  intros Hp w Hs. unfold world_after. destruct Hs as [Hs | Hs].
  - rewrite (log_user_action_logged action detail w u Hs). simpl.
    split; [now left |]. split.
    + eexists. split; [reflexivity |]. constructor; [| constructor].
      now repeat split.
    + exists []. split; [now rewrite app_nil_r | constructor].
  - rewrite (log_user_action_anonymous action detail w Hs).
    apply acts_as_refl. now right.
Qed.

Lemma acts_set_page (u : User.t) (p : string) :
  along (acts_as u) (set_page p).
Proof. intros w. now apply acts_as_silent. Qed.

Lemma acts_sign_out (u : User.t) : along (acts_as u) (set_user None).
Proof.
  intros w Hs. split; [now right |].
  split; exists []; (split; [now rewrite app_nil_r | constructor]).
Qed.

Lemma acts_add_patient (u : User.t) (n c d an ac en ec : string) :
  along (acts_as u) (add_patient n c d an ac en ec).
Proof. intros w. now apply acts_as_silent. Qed.

Lemma acts_update_patient (u : User.t) (pid : Z) (n c d an ac : string) :
  along (acts_as u) (update_patient pid n c d an ac).
Proof.
  intros w. unfold world_after, update_patient, bind, query.
  unfold DB.update_patient.
  destruct (DB.has_patient pid (patients (db w)));
    now apply acts_as_silent.
Qed.

Lemma acts_anonymize_all_patients (u : User.t) (env : Env) (c : Cipher.t) :
  along (acts_as u) (anonymize_all_patients env c).
Proof. intros w. now apply acts_as_silent. Qed.

(** Past the admin guard of a page, the session's user is an admin. *)
Lemma admin_past_guard (u : User.t) (s : Session) :
  session_of u s -> negb (check_role s ["admin"]) = false ->
  (User.role u =? "admin")%string = true.
Proof.
  unfold check_role. intros [Hs | Hs]; rewrite Hs; simpl.
  - rewrite orb_false_r. now destruct (User.role u =? "admin")%string.
  - discriminate.
Qed.

Ltac permitted_here :=
  first
    [ reflexivity
    | eapply admin_past_guard; eassumption
    | unfold permitted; simpl in *; assumption ].

Ltac acts_step :=
  lazymatch goal with
  | |- along (acts_as _) (bind get_session _) =>
      apply acts_bind_session; intros ? ?
  | |- along (acts_as _) (bind current_user _) =>
      apply acts_bind_current_user
  | |- along (acts_as _) (bind _ _) => apply acts_bind; [| intros ?]
  | |- along (acts_as ?u) (ret _) =>
      apply (along_ret (acts_as u) (acts_as_refl u))
  | |- along (acts_as ?u) (raise _) =>
      apply (along_raise (acts_as u) (acts_as_refl u))
  | |- along (acts_as ?u) st_rerun =>
      apply (along_rerun (acts_as u) (acts_as_refl u))
  | |- along (acts_as ?u) get_all_patients =>
      apply (along_get_all_patients (acts_as u) (acts_as_refl u))
  | |- along (acts_as ?u) get_all_logs =>
      apply (along_get_all_logs (acts_as u) (acts_as_refl u))
  | |- along (acts_as ?u) (next_with_id _ _) =>
      apply (along_next_with_id (acts_as u) (acts_as_refl u))
  | |- along (acts_as ?u) (decrypt_field _ _) =>
      apply (along_decrypt_field (acts_as u) (acts_as_refl u))
  | |- along (acts_as _) (notify (Write _)) =>
      apply acts_notify; intros _; eapply admin_past_guard; eassumption
  | |- along (acts_as _) (notify _) =>
      apply acts_notify; intros Hw; discriminate Hw
  | |- along (acts_as _) (log_user_action _ _) =>
      apply acts_log_user_action; permitted_here
  | |- along (acts_as _) (set_page _) => apply acts_set_page
  | |- along (acts_as _) (set_user None) => apply acts_sign_out
  | |- along (acts_as _) (add_patient _ _ _ _ _ _ _) => apply acts_add_patient
  | |- along (acts_as _) (update_patient _ _ _ _ _ _) =>
      apply acts_update_patient
  | |- along (acts_as _) (anonymize_all_patients _ _) =>
      apply acts_anonymize_all_patients
  | |- along (acts_as _) (if ?b then _ else _) => destruct b eqn:?
  | |- along (acts_as _) (match ?x with _ => _ end) => destruct x eqn:?
  | |- along (acts_as _) (let _ := _ in _) => cbv zeta
  end.

Lemma acts_logout (u : User.t) : along (acts_as u) logout.
Proof. unfold logout. repeat acts_step. Qed.

Lemma acts_dashboard_page (u : User.t) : along (acts_as u) dashboard_page.
Proof. unfold dashboard_page. repeat acts_step. Qed.

Lemma acts_patients_page (env : Env) (i : Inputs) (u : User.t) :
  along (acts_as u) (patients_page env i).
Proof.
  unfold patients_page, view_patients_tab, add_patient_tab,
    update_patient_tab.
  repeat acts_step.
Qed.

Lemma acts_anonymization_page (env : Env) (i : Inputs) (u : User.t) :
  along (acts_as u) (anonymization_page env i).
Proof. unfold anonymization_page. repeat acts_step. Qed.

Lemma acts_audit_logs_page (u : User.t) : along (acts_as u) audit_logs_page.
Proof. unfold audit_logs_page. repeat acts_step. Qed.

Lemma acts_nav_buttons (u : User.t) (pages : list string)
      (clicked : option string) :
  along (acts_as u) (nav_buttons pages clicked).
Proof.
  induction pages as [|p pages IH]; simpl.
  - apply (along_ret (acts_as u) (acts_as_refl u)).
  - destruct clicked as [c |]; [destruct (c =? p)%string |];
      try exact IH; repeat acts_step.
Qed.

Lemma acts_route (env : Env) (i : Inputs) (u : User.t) :
  along (acts_as u) (route env i).
Proof.
  unfold route. apply acts_bind_session. intros s _. cbv zeta.
  destruct (page s =? "Dashboard")%string; [apply acts_dashboard_page |].
  destruct (page s =? "Patients")%string; [apply acts_patients_page |].
  destruct (page s =? "Anonymization")%string;
    [apply acts_anonymization_page |].
  destruct (page s =? "Audit Logs")%string; [apply acts_audit_logs_page |].
  apply (along_ret (acts_as u) (acts_as_refl u)).
Qed.

(** A run of a logged-in session. *)
Lemma acts_main (env : Env) (i : Inputs) (w : World) (u : User.t) :
  user (session w) = Some u -> acts_as u w (world_after (main env i) w).
Proof.
  intros Hu. unfold world_after, main. unfold bind at 1.
  unfold get_session at 1. rewrite Hu.
  apply (acts_bind u); [apply acts_nav_buttons |]. intros _.
  apply acts_bind; [| intros _; apply acts_route].
  destruct (logout_click i);
    [apply acts_logout | apply (along_ret (acts_as u) (acts_as_refl u))].
Qed.

(** ** Properties of whole runs *)

(** X1.  Every audit entry a run adds carries a role that the script
    permits to perform its action: anonymize-all, decrypt, raw-data and
    audit-log views under admin only, the anonymized view under doctor only,
    add and update under admin or receptionist only.  In a logged-in session
    every added entry names the session's user and role.  So a table of
    permitted entries stays one over any sequence of runs. *)
Theorem audit_entries_permitted (env : Env) :
  (forall i w,
      Forall (fun e => permitted (Log.role e) (Log.action e) = true)
             (appended (main env i) w))
  /\ (forall i w u,
         user (session w) = Some u ->
         Forall (fun e => Log.username e = User.username u
                          /\ Log.role e = User.role u)
                (appended (main env i) w))
  /\ (forall l w,
         Forall (fun e => permitted (Log.role e) (Log.action e) = true)
                (logs (db w)) ->
         Forall (fun e => permitted (Log.role e) (Log.action e) = true)
                (logs (db (runs env l w)))).
Proof.
  assert (Hin : forall i w u, user (session w) = Some u ->
            Forall (fun e => Log.username e = User.username u
                             /\ Log.role e = User.role u
                             /\ permitted (User.role u) (Log.action e) = true)
                   (appended (main env i) w)).
  { intros i w u Hu.
    destruct (acts_main env i w u Hu (or_introl Hu))
      as [_ [[new [Hl Hf]] _]].
    unfold appended. now rewrite Hl, skipn_length_app. }
  assert (Hone : forall i w,
            Forall (fun e => permitted (Log.role e) (Log.action e) = true)
                   (appended (main env i) w)).
  { intros i w. destruct (user (session w)) as [u |] eqn:Hu.
    - eapply Forall_impl; [| exact (Hin i w u Hu)].
      intros e [_ [Hr Hp]]. now rewrite Hr.
    - unfold appended, world_after, main. unfold bind at 1.
      unfold get_session at 1. rewrite Hu.
      destruct (login_page_cases env i w) as [o [w' [Hrun [_ [_ Hc]]]]].
      rewrite Hrun. cbn [snd].
      destruct Hc as [[_ [Hd _]] | [_ [_ [u [_ [_ Hl]]]]]].
      + rewrite Hd, skipn_all. constructor.
      + rewrite Hl, skipn_length_app. constructor; [| constructor].
        reflexivity. }
  split; [exact Hone |]. split.
  - intros i w u Hu. eapply Forall_impl; [| exact (Hin i w u Hu)].
    now intros e [Hn [Hr _]].
  - intros l. induction l as [|[dt i] l IH]; intros w Hw; simpl.
    + exact Hw.
    + apply IH.
      pose proof (extends_main env i (advance dt w)) as [_ [new [Hl _]]].
      pose proof (Hone i (advance dt w)) as Hnew.
      unfold appended in Hnew. rewrite Hl in *.
      rewrite skipn_length_app in Hnew.
      apply Forall_app. split; [exact Hw | exact Hnew].
Qed.

Lemma audit_entries_permitted_witness :
  Forall (fun e => Log.username e = "alice_recep"
                   /\ Log.role e = "receptionist")
         (appended (main demo_env (submit_add "Jane Doe" "5551234567" "flu"))
                   front_desk).
Proof.
  apply (proj1 (proj2 (audit_entries_permitted demo_env))
               (submit_add "Jane Doe" "5551234567" "flu") front_desk
               receptionist_user).
  reflexivity.
Defined.

(** X2.  Decrypted text reaches the screen only in an admin's session: if
    a run prints a decrypted name or contact, the session's user has role
    admin. *)
Theorem decrypted_text_only_for_admin (env : Env) (i : Inputs) (w : World)
        (n : Notice) :
  In n (printed_by (main env i) w) -> is_write n = true ->
  exists u, user (session w) = Some u /\ User.role u = "admin".
Proof.
  intros Hin Hw. destruct (user (session w)) as [u |] eqn:Hu.
  - exists u. split; [reflexivity |].
    destruct (acts_main env i w u Hu (or_introl Hu))
      as [_ [_ [notices [Hs Hf]]]].
    unfold printed_by in Hin. rewrite Hs, skipn_length_app in Hin.
    rewrite Forall_forall in Hf. apply String.eqb_eq. now apply (Hf n).
  - exfalso. unfold printed_by, world_after, main in Hin.
    unfold bind at 1 in Hin. unfold get_session at 1 in Hin.
    rewrite Hu in Hin.
    destruct (login_submit i) eqn:Hs;
      [destruct (truthy (login_username i) && truthy (login_password i))
         eqn:Ht;
       [destruct (authenticate_user env (login_username i)
                                    (login_password i)) as [v |] eqn:Ha |] |].
    + rewrite (login_page_success env i w v Hs Ht Ha) in Hin.
      simpl in Hin. rewrite skipn_length_app in Hin.
      destruct Hin as [<- | []]. discriminate Hw.
    + rewrite (login_page_rejected env i w Hs Ht Ha) in Hin.
      simpl in Hin. rewrite skipn_length_app in Hin.
      destruct Hin as [<- | [<- | []]]; discriminate Hw.
    + rewrite (login_page_incomplete env i w Hs Ht) in Hin.
      simpl in Hin. rewrite skipn_length_app in Hin.
      destruct Hin as [<- | [<- | []]]; discriminate Hw.
    + rewrite (login_page_idle env i w Hs) in Hin.
      simpl in Hin. rewrite skipn_length_app in Hin.
      destruct Hin as [<- | []]. discriminate Hw.
Qed.

Lemma decrypted_text_only_for_admin_witness :
  exists u, user (session (ward admin_user "Anonymization")) = Some u
            /\ User.role u = "admin".
Proof.
  apply (decrypted_text_only_for_admin demo_env click_decrypt
           (ward admin_user "Anonymization") (Write "**Name:** Jane Doe")).
  - right. right. left. reflexivity.
  - reflexivity.
Defined.



(** X4.  A run that changes the patient table is a run in the session of
    an admin or a receptionist, and it ends with a rerun: the page is never
    rendered further on a table the run has just changed. *)
Theorem table_changes_by_staff_then_rerun (env : Env) (i : Inputs)
        (w : World) :
  patients (db (world_after (main env i) w)) <> patients (db w) ->
  outcome_of (main env i) w = Rerun
  /\ exists u,
       user (session w) = Some u
       /\ str_in (User.role u) ["admin"; "receptionist"] = true.
Proof.
  unfold outcome_of, world_after.
  destruct (main_cases env i w) as [o [w' [Hrun [_ [_ Hc]]]]].
  rewrite Hrun. cbn [fst snd]. intros Hne.
  destruct Hc as [[Hp _] | [Hd Hu]]; [contradiction | now split].
Qed.

Lemma table_changes_by_staff_then_rerun_witness :
  outcome_of (main demo_env (submit_add "Jane Doe" "5551234567" "flu"))
             front_desk = Rerun
  /\ exists u,
       user (session front_desk) = Some u
       /\ str_in (User.role u) ["admin"; "receptionist"] = true.
Proof.
  apply (table_changes_by_staff_then_rerun demo_env
           (submit_add "Jane Doe" "5551234567" "flu") front_desk).
  discriminate.
Defined.

(** ** Invariants of the patient table *)

Lemma table_step_of_run (env : Env) (i : Inputs) (w : World) :
  TableStep env i w (world_after (main env i) w)
  /\ now (world_after (main env i) w) = now w.
Proof.
  unfold world_after.
  destruct (main_cases env i w) as [o [w' [Hrun [Hn [Ht _]]]]].
  rewrite Hrun. now split.
Qed.

Lemma update_row_id (env : Env) (sid : Z) (n c d : string) (p : Patient.t) :
  Patient.patient_id (update_row env sid n c d p) = Patient.patient_id p.
Proof.
  unfold update_row. now destruct (Patient.patient_id p =? sid).
Qed.

(** The ids of the table after a step: the ids before, in order, followed
    by the next id when a patient was added. *)
Lemma table_step_ids (env : Env) (i : Inputs) (w w' : World) :
  TableStep env i w w' ->
  map Patient.patient_id (patients (db w'))
  = map Patient.patient_id (patients (db w))
  \/ map Patient.patient_id (patients (db w'))
     = map Patient.patient_id (patients (db w))
       ++ [DB.next_patient_id (patients (db w))].
Proof.
  intros [Hk | Ha | sid n c d _ Hu | Hz].
  - left. now rewrite Hk.
  - right. rewrite Ha, map_app. reflexivity.
  - left. rewrite Hu, map_map. apply map_ext. apply update_row_id.
  - left. rewrite Hz, map_map. now apply map_ext.
Qed.

Lemma NoDup_snoc_above (ps : list Patient.t) :
  NoDup (map Patient.patient_id ps) ->
  NoDup (map Patient.patient_id ps ++ [DB.next_patient_id ps]).
Proof.
  intros Hnd. apply NoDup_app; [exact Hnd | repeat constructor; auto |].
  intros x Hx [<- | []].
  apply in_map_iff in Hx. destruct Hx as [p [Hp Hin]].
  pose proof (next_patient_id_above ps) as Hall.
  rewrite Forall_forall in Hall. specialize (Hall p Hin). lia.
Qed.

(** X5.  No run removes or reorders patients: the ids after a run are the
    ids before it, in the same order, followed by at most one id, which is
    new to the table.  So over any sequence of runs the old ids stay a
    prefix of the table's ids, and ids that were distinct stay distinct. *)
Theorem patients_never_removed (env : Env) :
  (forall i w,
      exists extra,
        map Patient.patient_id (patients (db (world_after (main env i) w)))
        = map Patient.patient_id (patients (db w)) ++ extra
        /\ (extra = []
            \/ (extra = [DB.next_patient_id (patients (db w))]
                /\ ~ In (DB.next_patient_id (patients (db w)))
                        (map Patient.patient_id (patients (db w))))))
  /\ (forall l w,
         (exists extra,
             map Patient.patient_id (patients (db (runs env l w)))
             = map Patient.patient_id (patients (db w)) ++ extra)
         /\ (NoDup (map Patient.patient_id (patients (db w))) ->
             NoDup (map Patient.patient_id (patients (db (runs env l w)))))).
Proof.
  assert (Hone : forall i w,
            exists extra,
              map Patient.patient_id
                  (patients (db (world_after (main env i) w)))
              = map Patient.patient_id (patients (db w)) ++ extra
              /\ (extra = []
                  \/ (extra = [DB.next_patient_id (patients (db w))]
                      /\ ~ In (DB.next_patient_id (patients (db w)))
                              (map Patient.patient_id (patients (db w)))))).
  { intros i w.
    destruct (table_step_ids env i w _ (proj1 (table_step_of_run env i w)))
      as [H | H]; rewrite H.
    - exists []. split; [now rewrite app_nil_r | now left].
    - eexists. split; [reflexivity |]. right. split; [reflexivity |].
      intros Hin. apply in_map_iff in Hin. destruct Hin as [p [Hp Hin]].
      pose proof (next_patient_id_above (patients (db w))) as Hall.
      rewrite Forall_forall in Hall. specialize (Hall p Hin). lia. }
  split; [exact Hone |].
  intros l. induction l as [|[dt i] l IH]; intros w; simpl.
  - split; [exists []; now rewrite app_nil_r | auto].
  - destruct (IH (world_after (main env i) (advance dt w)))
      as [[extra2 He2] Hnd2].
    destruct (Hone i (advance dt w)) as [extra1 [He1 Hc1]].
    simpl in He1. split.
    + exists (extra1 ++ extra2). now rewrite He2, He1, app_assoc.
    + intros Hnd. apply Hnd2. rewrite He1.
      destruct Hc1 as [-> | [-> _]].
      * now rewrite app_nil_r.
      * now apply NoDup_snoc_above.
Qed.

Lemma patients_never_removed_witness :
  NoDup (map Patient.patient_id
             (patients (db (runs demo_env
                              [(5%N, submit_add "Jane Doe" "5551234567" "flu");
                               (3%N, submit_add "John Roe" "5557654321" "cough")]
                              front_desk)))).
Proof.
  apply (proj2 (proj2 (patients_never_removed demo_env)
                      [(5%N, submit_add "Jane Doe" "5551234567" "flu");
                       (3%N, submit_add "John Roe" "5557654321" "cough")]
                      front_desk)).
  simpl. constructor.
Defined.

(** X6.  The masks stay current: if every record carries [mask_name] of
    its own id and [mask_contact] of its own contact, so does every record
    after a run, and so after any sequence of runs, whatever was added,
    updated or anonymized in between. *)
Theorem masks_stay_current (env : Env) :
  (forall i w,
      masks_current env w ->
      masks_current env (world_after (main env i) w))
  /\ (forall l w, masks_current env w -> masks_current env (runs env l w)).
Proof.
  assert (Hone : forall i w,
            masks_current env w ->
            masks_current env (world_after (main env i) w)).
  { intros i w Hm. unfold masks_current in *.
    destruct (proj1 (table_step_of_run env i w))
      as [Hk | Ha | sid n c d _ Hu | Hz].
    - now rewrite Hk.
    - rewrite Ha. apply Forall_app. split; [exact Hm |].
      constructor; [| constructor]. now split.
    - rewrite Hu. apply Forall_map.
      eapply Forall_impl; [| exact Hm]. intros p [Hn Hc]. unfold update_row.
      destruct (Z.eqb_spec (Patient.patient_id p) sid) as [He | Hne].
      + simpl. now rewrite He.
      + now split.
    - rewrite Hz. apply Forall_map. apply Forall_forall. now intros p _. }
  split; [exact Hone |].
  intros l. induction l as [|[dt i] l IH]; intros w Hm; simpl.
  - exact Hm.
  - apply IH. apply Hone. exact Hm.
Qed.

Lemma masks_stay_current_witness :
  masks_current demo_env
    (runs demo_env
       [(5%N, submit_add "Jane Doe" "5551234567" "flu");
        (3%N, submit_update "Jane Q. Doe")]
       front_desk).
Proof.
  apply (proj2 (masks_stay_current demo_env)).
  constructor.
Defined.

(** ** The session *)

(** How a run can change the session. *)
Lemma main_session_cases (env : Env) (i : Inputs) (w : World) :
  session (world_after (main env i) w) = session w
  \/ (exists u p,
         user (session w) = Some u /\ nav_click i = Some p
         /\ In p (sidebar_pages u)
         /\ session (world_after (main env i) w)
            = mkSession (Some u) p (start_time (session w)))
  \/ (exists u,
         user (session w) = Some u /\ logout_click i = true
         /\ session (world_after (main env i) w)
            = mkSession None "Login" (start_time (session w)))
  \/ (exists u,
         user (session w) = None /\ login_submit i = true
         /\ authenticate_user env (login_username i) (login_password i)
            = Some u
         /\ session (world_after (main env i) w)
            = mkSession (Some u) "Dashboard" (start_time (session w))).
Proof.
  set (Q := fun s' : Session =>
    s' = session w
    \/ (exists u p,
           user (session w) = Some u /\ nav_click i = Some p
           /\ In p (sidebar_pages u)
           /\ s' = mkSession (Some u) p (start_time (session w)))
    \/ (exists u,
           user (session w) = Some u /\ logout_click i = true
           /\ s' = mkSession None "Login" (start_time (session w)))
    \/ (exists u,
           user (session w) = None /\ login_submit i = true
           /\ authenticate_user env (login_username i) (login_password i)
              = Some u
           /\ s' = mkSession (Some u) "Dashboard" (start_time (session w)))).
  change (Q (session (snd (main env i w)))).
  unfold main. unfold bind at 1. unfold get_session at 1.
  destruct (user (session w)) as [u |] eqn:Hu.
  - unfold bind at 1.
    destruct (nav_buttons_cases (sidebar_pages u) (nav_click i) w)
      as [Hnav | [p [Hin [Hc Hnav]]]]; rewrite Hnav.
    2:{ right. left. exists u, p. rewrite Hu. now repeat split. }
    unfold bind at 1. destruct (logout_click i) eqn:Hl.
    { rewrite (logout_run w u Hu). right. right. left. exists u.
      now repeat split. }
    left. unfold ret at 1. unfold route, bind at 1, get_session. cbv zeta.
    destruct (page (session w) =? "Dashboard")%string.
    { now rewrite (dashboard_page_run w u Hu). }
    destruct (page (session w) =? "Patients")%string.
    { destruct (patients_page_cases env i w u Hu)
        as [o [w' [Hrun [Hs _]]]].
      now rewrite Hrun. }
    destruct (page (session w) =? "Anonymization")%string.
    { destruct (anonymization_page_cases env i w)
        as [o [w' [Hrun [Hs _]]]].
      now rewrite Hrun. }
    destruct (page (session w) =? "Audit Logs")%string.
    { destruct (audit_logs_page_done w) as [w' [Hrun [_ [Hs _]]]].
      now rewrite Hrun. }
    reflexivity.
  - destruct (login_page_cases env i w) as [o [w' [Hrun [_ [_ Hc]]]]].
    rewrite Hrun. cbn [snd].
    destruct Hc as [[_ [_ [_ Hs]]] | [_ [Hsub [u [Ha [Hs _]]]]]].
    + now left.
    + right. right. right. exists u. now repeat split.
Qed.

(** X7.  Nobody becomes logged in without accepted credentials, and a
    session never passes to another user: if a user is logged in after a
    run, either the same user was logged in before it, or nobody was and
    the run carried a submitted login whose username and password
    [authenticate_user] accepted as that user.  A logged-in session ends
    only by a click on logout, which leads to the login page: if a user was
    logged in before a run and nobody is after it, logout was clicked and
    the page is the login page. *)
Theorem login_only_with_accepted_credentials (env : Env) (i : Inputs)
        (w : World) :
  (forall u,
      user (session (world_after (main env i) w)) = Some u ->
      user (session w) = Some u
      \/ (user (session w) = None /\ login_submit i = true
          /\ authenticate_user env (login_username i) (login_password i)
             = Some u
          /\ page (session (world_after (main env i) w)) = "Dashboard"))
  /\ (forall v,
         user (session w) = Some v ->
         user (session (world_after (main env i) w)) = None ->
         logout_click i = true
         /\ page (session (world_after (main env i) w)) = "Login").
Proof.
  split.
  - intros u Hafter.
    destruct (main_session_cases env i w)
      as [Hs | [[v [p [Hv [_ [_ Hs]]]]] | [[v [Hv [Hl Hs]]]
         | [v [Hv [Hsub [Ha Hs]]]]]]];
      rewrite Hs in *; simpl in *.
    + now left.
    + injection Hafter as <-. now left.
    + discriminate Hafter.
    + injection Hafter as <-. right. now repeat split.
  - intros v Hbefore Hafter.
    destruct (main_session_cases env i w)
      as [Hs | [[v' [p [Hv [_ [_ Hs]]]]] | [[v' [Hv [Hl Hs]]]
         | [v' [Hv [Hsub [Ha Hs]]]]]]];
      rewrite Hs in *; simpl in *.
    + congruence.
    + discriminate Hafter.
    + now split.
    + congruence.
Qed.

Lemma login_only_with_accepted_credentials_witness :
  (user (session fresh_world) = Some doctor_user
   \/ (user (session fresh_world) = None
       /\ login_submit (login_as "dr_bob" "doc123") = true
       /\ authenticate_user demo_env
            (login_username (login_as "dr_bob" "doc123"))
            (login_password (login_as "dr_bob" "doc123"))
          = Some doctor_user
       /\ page (session (world_after
                           (main demo_env (login_as "dr_bob" "doc123"))
                           fresh_world)) = "Dashboard"))
  /\ (logout_click click_logout = true
      /\ page (session (world_after (main demo_env click_logout)
                                    (ward doctor_user "Patients")))
         = "Login").
Proof.
  split.
  - apply (proj1 (login_only_with_accepted_credentials demo_env
                    (login_as "dr_bob" "doc123") fresh_world) doctor_user).
    reflexivity.
  - apply (proj2 (login_only_with_accepted_credentials demo_env click_logout
                    (ward doctor_user "Patients")) doctor_user);
      reflexivity.
Defined.

(** X8.  The page a logged-in session is routed to is always one its
    sidebar offers: this holds after a login and is kept by every run, so
    by every sequence of runs.  A doctor or a receptionist is therefore
    never routed to the anonymization page or the audit logs. *)
Theorem routed_page_always_offered (env : Env) :
  (forall l w, page_offered w -> page_offered (runs env l w))
  /\ (forall w u,
         page_offered w -> user (session w) = Some u ->
         User.role u <> "admin" ->
         page (session w) = "Dashboard" \/ page (session w) = "Patients").
Proof.
  split.
  - assert (Hone : forall i w, page_offered w ->
                     page_offered (world_after (main env i) w)).
    { intros i w Hw v Hv.
      destruct (main_session_cases env i w)
        as [Hs | [[u [p [Hu [_ [Hin Hs]]]]] | [[u [_ [_ Hs]]]
           | [u [_ [_ [_ Hs]]]]]]];
        rewrite Hs in *; simpl in *.
      - now apply Hw.
      - injection Hv as <-. exact Hin.
      - discriminate Hv.
      - injection Hv as <-. now left. }
    intros l. induction l as [|[dt i] l IH]; intros w Hw; simpl.
    + exact Hw.
    + apply IH. apply Hone. exact Hw.
  - intros w u Hw Hu Hr. specialize (Hw u Hu). unfold sidebar_pages in Hw.
    destruct (String.eqb_spec (User.role u) "admin") as [He | _];
      [contradiction |].
    simpl in Hw. destruct Hw as [H | [H | []]]; auto.
Qed.

Lemma routed_page_always_offered_witness :
  page_offered
    (runs demo_env
       [(0%N, login_as "dr_bob" "doc123"); (1%N, idle);
        (2%N, click_nav "Anonymization"); (1%N, click_nav "Patients")]
       fresh_world).
Proof.
  apply (proj1 (routed_page_always_offered demo_env)).
  intros u Hu. discriminate Hu.
Defined.

Lemma nav_buttons_click (pages : list string) (p : string) (w : World) :
  In p pages ->
  nav_buttons pages (Some p) w
  = (Rerun,
     mkWorld (db w) (journal w)
             (mkSession (user (session w)) p (start_time (session w)))
             (now w) (screen w)).
Proof.
  intros Hin.
  destruct (nav_buttons_cases pages (Some p) w) as [Hd | [q [_ [Hq Hr]]]].
  - exfalso. induction pages as [|q pages IH]; [contradiction |].
    simpl in Hd. destruct (String.eqb_spec p q) as [-> | Hne].
    + discriminate Hd.
    + destruct Hin as [-> | Hin]; [congruence | auto].
  - injection Hq as <-. exact Hr.
Qed.

Lemma nav_buttons_absent (pages : list string) (p : string) (w : World) :
  ~ In p pages -> nav_buttons pages (Some p) w = (Done tt, w).
Proof.
  intros Hnin.
  destruct (nav_buttons_cases pages (Some p) w) as [Hd | [q [Hin [Hq _]]]].
  - exact Hd.
  - injection Hq as <-. contradiction.
Qed.

(** X9.  A click on a navigation button of the user's sidebar takes
    precedence over everything else in the run: the page is set, the run
    reruns at once, and nothing is written or printed, whatever other
    buttons and forms the run carries.  A page the sidebar of the user does
    not offer cannot be navigated to: the click has no effect on the
    buttons. *)
Theorem navigation_click_first (env : Env) (i : Inputs) (w : World)
        (u : User.t) (p : string) :
  user (session w) = Some u -> nav_click i = Some p ->
  (In p (sidebar_pages u) ->
   main env i w
   = (Rerun,
      mkWorld (db w) (journal w)
              (mkSession (Some u) p (start_time (session w)))
              (now w) (screen w)))
  /\ (~ In p (sidebar_pages u) ->
      nav_buttons (sidebar_pages u) (nav_click i) w = (Done tt, w)).
Proof.
  intros Hu Hn. split; intros Hin.
  - unfold main. unfold bind at 1. unfold get_session at 1. rewrite Hu, Hn.
    unfold bind at 1. rewrite (nav_buttons_click _ p w Hin).
    now rewrite Hu.
  - rewrite Hn. now apply nav_buttons_absent.
Qed.

Lemma navigation_click_first_witness :
  main demo_env (click_nav "Audit Logs") (ward admin_user "Dashboard")
  = (Rerun, ward admin_user "Audit Logs").
Proof.
  apply (proj1 (navigation_click_first demo_env (click_nav "Audit Logs")
                  (ward admin_user "Dashboard") admin_user "Audit Logs"
                  eq_refl eq_refl)).
  simpl. auto.
Defined.

Lemma logout_interaction (env : Env) (i : Inputs) (w : World) (u : User.t) :
  user (session w) = Some u -> nav_click i = None ->
  logout_click i = true ->
  let logged :=
    committed (DB.add_log (User.username u) (User.role u) "LOGOUT"
                          "User logged out" (now w) (db w)) w in
  interaction env i w
  = (Done tt,
     mkWorld (db logged) (journal logged)
             (mkSession None "Login" (start_time (session w)))
             (now w) (screen w ++ [Info demo_credentials_info])).
Proof.
  intros Hu Hn Hl logged. unfold interaction.
  assert (E : main env i w = logout w).
  { unfold main. unfold bind at 1. unfold get_session at 1.
    rewrite Hu, Hn. unfold bind at 1. rewrite nav_buttons_idle.
    unfold bind at 1. rewrite Hl. now rewrite (logout_run w u Hu). }
  rewrite E, (logout_run w u Hu). reflexivity.
Qed.

(** X10.  Logging out: with a user logged in and no navigation click, a
    click on logout writes one LOGOUT entry in the user's name, clears the
    session's user and sets the login page; the rerun that follows renders
    the login page, which prints the demo credentials under its form, and
    changes nothing more.  The patient table is untouched. *)
Theorem logout_ends_session (env : Env) (i : Inputs) (w : World)
        (u : User.t) :
  user (session w) = Some u -> nav_click i = None ->
  logout_click i = true ->
  outcome_of (interaction env i) w = Done tt
  /\ session (world_after (interaction env i) w)
     = mkSession None "Login" (start_time (session w))
  /\ logs (db (world_after (interaction env i) w))
     = logs (db w) ++ [log_entry u "LOGOUT" "User logged out" (now w)]
  /\ patients (db (world_after (interaction env i) w)) = patients (db w)
  /\ screen (world_after (interaction env i) w)
     = screen w ++ [Info demo_credentials_info].
Proof.
  intros Hu Hn Hl. unfold outcome_of, world_after.
  rewrite (logout_interaction env i w u Hu Hn Hl). now repeat split.
Qed.

Lemma logout_ends_session_witness :
  session (world_after (interaction demo_env click_logout)
                       (ward doctor_user "Patients"))
  = mkSession None "Login" 0.
Proof.
  apply (logout_ends_session demo_env click_logout
           (ward doctor_user "Patients") doctor_user);
    reflexivity.
Defined.

Lemma login_interaction (env : Env) (i : Inputs) (w : World) (u : User.t) :
  user (session w) = None ->
  login_submit i = true ->
  truthy (login_username i) && truthy (login_password i) = true ->
  authenticate_user env (login_username i) (login_password i) = Some u ->
  exists w',
    interaction env i w = (Done tt, w')
    /\ session w' = mkSession (Some u) "Dashboard" (start_time (session w))
    /\ db w'
       = DB.add_log (User.username u) (User.role u) "VIEW_DASHBOARD"
           "Accessed dashboard" (now w)
           (DB.add_log (User.username u) (User.role u) "LOGIN"
              ("User " ++ login_username i ++ " logged in")%string
              (now w) (db w)).
Proof.
  intros Hu Hs Ht Ha. unfold interaction.
  assert (E : main env i w = login_page env i w).
  { unfold main. unfold bind at 1. unfold get_session at 1. now rewrite Hu. }
  rewrite E, (login_page_success env i w u Hs Ht Ha). cbv beta iota.
  rewrite main_routes with (u := u) by reflexivity.
  unfold route, bind, get_session. simpl page. simpl String.eqb. cbv iota.
  rewrite dashboard_page_run with (u := u) by reflexivity.
  eexists. split; [reflexivity |]. now split.
Qed.

(** X11.  Logging in: with nobody logged in, a submitted login with both
    fields filled that [authenticate_user] accepts, followed by the rerun
    it asks for, ends on the dashboard of that user, and the two runs
    together add exactly two audit entries in the user's name: LOGIN, then
    VIEW_DASHBOARD. *)
Theorem login_lands_on_dashboard (env : Env) (i : Inputs) (w : World)
        (u : User.t) :
  user (session w) = None ->
  login_submit i = true ->
  truthy (login_username i) && truthy (login_password i) = true ->
  authenticate_user env (login_username i) (login_password i) = Some u ->
  outcome_of (interaction env i) w = Done tt
  /\ session (world_after (interaction env i) w)
     = mkSession (Some u) "Dashboard" (start_time (session w))
  /\ logs (db (world_after (interaction env i) w))
     = logs (db w)
       ++ [log_entry u "LOGIN"
             ("User " ++ login_username i ++ " logged in")%string (now w);
           log_entry u "VIEW_DASHBOARD" "Accessed dashboard" (now w)]
  /\ patients (db (world_after (interaction env i) w)) = patients (db w).
Proof.
  intros Hu Hs Ht Ha. unfold outcome_of, world_after.
  destruct (login_interaction env i w u Hu Hs Ht Ha) as [w' [Hrun [Hse Hdb]]].
  rewrite Hrun. cbn [fst snd]. rewrite Hdb. simpl.
  repeat split; [exact Hse | now rewrite <- app_assoc].
Qed.

Lemma login_lands_on_dashboard_witness :
  map Log.action
      (logs (db (world_after
                   (interaction demo_env (login_as "alice_recep" "rec123"))
                   fresh_world)))
  = ["LOGIN"; "VIEW_DASHBOARD"].
Proof.
  rewrite (proj1 (proj2 (proj2
             (login_lands_on_dashboard demo_env
                (login_as "alice_recep" "rec123") fresh_world
                receptionist_user eq_refl eq_refl eq_refl eq_refl)))).
  reflexivity.
Defined.

(** ** Updating, anonymizing and decrypting *)

Lemma update_row_frame (env : Env) (sid : Z) (n c d : string)
      (ps : list Patient.t) :
  Forall2 (fun p p' =>
             Patient.patient_id p' = Patient.patient_id p
             /\ Patient.encrypted_name p' = Patient.encrypted_name p
             /\ Patient.encrypted_contact p' = Patient.encrypted_contact p
             /\ Patient.date_added p' = Patient.date_added p
             /\ (Patient.patient_id p <> sid -> p' = p))
          ps (map (update_row env sid n c d) ps).
Proof.
  induction ps as [|q ps IH]; simpl; constructor.
  - unfold update_row.
    destruct (Z.eqb_spec (Patient.patient_id q) sid) as [He | Hn];
      simpl; repeat split; congruence.
  - exact IH.
Qed.

(** X12.  The update form, submitted by an admin or a receptionist over a
    non-empty table, rewrites the rows of the selected id and nothing else:
    those rows get the typed name, contact and diagnosis (an input left
    alone keeps the stored value; nothing is required to be non-empty) and
    the masks of the id and of the typed contact; every row keeps its id,
    its two ciphertexts and its date, and a row of another id is left as it
    is.  The run ends with a rerun. *)
Theorem update_rewrites_selected_only (env : Env) (i : Inputs) (u : User.t)
        (w : World) :
  user (session w) = Some u ->
  str_in (User.role u) ["admin"; "receptionist"] = true ->
  patients (db w) <> [] ->
  upd_submit i = true ->
  let sid :=
    selectbox (map Patient.patient_id (patients (db w))) (upd_selected i) in
  exists selected : Patient.t,
    find (fun p => Patient.patient_id p =? sid) (patients (db w))
    = Some selected
    /\ outcome_of (update_patient_tab env i u) w = Rerun
    /\ patients (db (world_after (update_patient_tab env i u) w))
       = map (update_row env sid
                (text_input (upd_name i) (Patient.name selected))
                (text_input (upd_contact i) (Patient.contact selected))
                (text_input (upd_diagnosis i) (Patient.diagnosis selected)))
             (patients (db w))
    /\ Forall2 (fun p p' =>
                  Patient.patient_id p' = Patient.patient_id p
                  /\ Patient.encrypted_name p' = Patient.encrypted_name p
                  /\ Patient.encrypted_contact p'
                     = Patient.encrypted_contact p
                  /\ Patient.date_added p' = Patient.date_added p
                  /\ (Patient.patient_id p <> sid -> p' = p))
               (patients (db w))
               (patients (db (world_after (update_patient_tab env i u) w))).
Proof.
  intros Hu Hr Hne Hs sid.
  destruct (update_patient_tab_run env i u w Hu Hr Hne Hs)
    as [p [d [Hp [Hd Hrun]]]].
  exists p. split; [exact Hp |].
  unfold outcome_of, world_after. rewrite Hrun. cbn [fst snd].
  split; [reflexivity |].
  assert (Hrows := update_patient_rows _ _ _ _ _ _ _ Hd).
  simpl. fold sid in Hrows. split; [exact Hrows |].
  rewrite Hrows. apply update_row_frame.
Qed.

Lemma update_rewrites_selected_only_witness :
  exists selected : Patient.t,
    find (fun p => Patient.patient_id p =? 1) [jane] = Some selected
    /\ outcome_of (update_patient_tab demo_env (submit_update "Jane Q. Doe")
                                      admin_user)
                  (ward admin_user "Patients") = Rerun
    /\ patients (db (world_after
                       (update_patient_tab demo_env
                          (submit_update "Jane Q. Doe") admin_user)
                       (ward admin_user "Patients")))
       = map (update_row demo_env 1
                (text_input (Some "Jane Q. Doe") (Patient.name selected))
                (text_input None (Patient.contact selected))
                (text_input None (Patient.diagnosis selected)))
             [jane]
    /\ Forall2 (fun p p' =>
                  Patient.patient_id p' = Patient.patient_id p
                  /\ Patient.encrypted_name p' = Patient.encrypted_name p
                  /\ Patient.encrypted_contact p'
                     = Patient.encrypted_contact p
                  /\ Patient.date_added p' = Patient.date_added p
                  /\ (Patient.patient_id p <> 1 -> p' = p))
               [jane]
               (patients (db (world_after
                                (update_patient_tab demo_env
                                   (submit_update "Jane Q. Doe") admin_user)
                                (ward admin_user "Patients")))).
Proof.
  apply (update_rewrites_selected_only demo_env (submit_update "Jane Q. Doe")
           admin_user (ward admin_user "Patients"));
    [reflexivity | reflexivity | discriminate | reflexivity].
Defined.

Lemma find_map_same_id (f : Patient.t -> Patient.t) (sid : Z)
      (ps : list Patient.t) :
  (forall p, Patient.patient_id (f p) = Patient.patient_id p) ->
  find (fun p => Patient.patient_id p =? sid) (map f ps)
  = option_map f (find (fun p => Patient.patient_id p =? sid) ps).
Proof.
  intros Hf. induction ps as [|q ps IH]; simpl; [reflexivity |].
  rewrite Hf. now destruct (Patient.patient_id q =? sid).
Qed.

Lemma map_ids_same (f : Patient.t -> Patient.t) (ps : list Patient.t) :
  (forall p, Patient.patient_id (f p) = Patient.patient_id p) ->
  map Patient.patient_id (map f ps) = map Patient.patient_id ps.
Proof. intros Hf. rewrite map_map. now apply map_ext. Qed.

(** X13.  After the admin's bulk anonymization, the decrypt button shows
    the current raw name and contact of the selected patient, provided the
    cipher decrypts what it encrypted of these two fields: the render
    prints the notice of the page, the heading and the two values, and the
    decryption is logged as DECRYPT_DATA. *)
Theorem decrypt_after_anonymize_shows_raw (env : Env) (i1 i2 : Inputs)
        (w : World) (u : User.t) (p : Patient.t) :
  user (session w) = Some u -> User.role u = "admin" ->
  apply_click i1 = true ->
  apply_click i2 = false -> decrypt_click i2 = true ->
  find (fun q => Patient.patient_id q
                 =? selectbox (map Patient.patient_id (patients (db w)))
                              (dec_selected i2))
       (patients (db w)) = Some p ->
  Cipher.decrypt (get_cipher env)
                 (Cipher.encrypt (get_cipher env) (Patient.name p))
  = Some (Patient.name p) ->
  Cipher.decrypt (get_cipher env)
                 (Cipher.encrypt (get_cipher env) (Patient.contact p))
  = Some (Patient.contact p) ->
  let w1 := world_after (anonymization_page env i1) w in
  outcome_of (anonymization_page env i2) w1 = Done tt
  /\ printed_by (anonymization_page env i2) w1
     = [Info "**GDPR Article 4(5)**: Pseudonymisation with separate key management";
        Success "Decrypted Data:";
        Write ("**Name:** " ++ Patient.name p)%string;
        Write ("**Contact:** " ++ Patient.contact p)%string]
  /\ map Log.action (appended (anonymization_page env i2) w1)
     = ["DECRYPT_DATA"].
Proof.
  intros Hu Hr Ha1 Ha2 Hd2 Hp Hn Hc w1.
  assert (Hid : forall q,
            Patient.patient_id
              (DB.anonymize (mask_name env) (mask_contact env)
                            (Cipher.encrypt (get_cipher env)) q)
            = Patient.patient_id q) by reflexivity.
  assert (Hw1 : w1 = snd (anonymization_page env i1 w)) by reflexivity.
  rewrite (anonymization_page_apply env i1 w u Hu Hr Ha1) in Hw1.
  cbn [snd] in Hw1.
  assert (Hu1 : user (session w1) = Some u) by (rewrite Hw1; exact Hu).
  assert (Hps : patients (db w1)
                = map (DB.anonymize (mask_name env) (mask_contact env)
                                    (Cipher.encrypt (get_cipher env)))
                      (patients (db w))) by (rewrite Hw1; reflexivity).
  assert (Hp1 : find (fun q => Patient.patient_id q
                               =? selectbox (map Patient.patient_id
                                                 (patients (db w1)))
                                            (dec_selected i2))
                     (patients (db w1))
                = Some (DB.anonymize (mask_name env) (mask_contact env)
                                     (Cipher.encrypt (get_cipher env)) p)).
  { rewrite Hps, (map_ids_same _ _ Hid), (find_map_same_id _ _ _ Hid), Hp.
    reflexivity. }
  unfold outcome_of, printed_by, appended, world_after.
  rewrite (anonymization_page_decrypt env i2 w1 u _ (Patient.name p)
             (Patient.contact p) Hu1 Hr Ha2 Hd2 Hp1 Hn Hc).
  cbn [fst snd]. split; [reflexivity |]. split.
  - simpl. apply skipn_length_app.
  - simpl. now rewrite skipn_length_app.
Qed.

Lemma decrypt_after_anonymize_shows_raw_witness :
  printed_by (anonymization_page demo_env click_decrypt)
             (world_after (anonymization_page demo_env click_apply)
                          tampered_ward)
  = [Info "**GDPR Article 4(5)**: Pseudonymisation with separate key management";
     Success "Decrypted Data:";
     Write "**Name:** Mallory";
     Write "**Contact:** 5550000000"].
Proof.
  apply (decrypt_after_anonymize_shows_raw demo_env click_apply click_decrypt
           tampered_ward admin_user mallory);
    reflexivity.
Defined.

Lemma anonymization_page_decrypt_prints (env : Env) (i : Inputs) (w : World)
      (u : User.t) (p : Patient.t) :
  user (session w) = Some u -> User.role u = "admin" ->
  apply_click i = false -> decrypt_click i = true ->
  find (fun q => Patient.patient_id q
                 =? selectbox (map Patient.patient_id (patients (db w)))
                              (dec_selected i))
       (patients (db w)) = Some p ->
  printed_by (anonymization_page env i) w
  = Info "**GDPR Article 4(5)**: Pseudonymisation with separate key management"
    :: decrypted_notices env p.
Proof.
  intros Hu Hr Ha Hd Hp. unfold printed_by, world_after, decrypted_notices.
  destruct (Cipher.decrypt (get_cipher env) (Patient.encrypted_name p))
    as [name |] eqn:Hn.
  - destruct (Cipher.decrypt (get_cipher env) (Patient.encrypted_contact p))
      as [contact |] eqn:Hc.
    + rewrite (anonymization_page_decrypt env i w u p name contact
                 Hu Hr Ha Hd Hp Hn Hc).
      simpl. apply skipn_length_app.
    + assert (E : anonymization_page env i w
                  = (Raised DecryptionError,
                     printed
                       [Info "**GDPR Article 4(5)**: Pseudonymisation with separate key management"]
                       w)).
      { unfold anonymization_page.
        unfold bind at 1. unfold get_session at 1.
        rewrite (check_role_admin _ u Hu Hr).
        change (negb true) with false. cbv beta iota.
        unfold bind at 1. unfold notify at 1. cbv beta iota. rewrite Ha.
        unfold bind at 1. unfold ret at 1.
        unfold bind at 1. unfold get_all_patients, query, DB.get_all_patients.
        cbn [db].
        assert (Hne : patients (db w) <> []).
        { intros He. rewrite He in Hp. discriminate Hp. }
        rewrite (is_empty_false _ Hne). cbv zeta. rewrite Hd.
        unfold bind at 1. unfold next_with_id. rewrite Hp. unfold ret at 1.
        unfold bind at 1. unfold decrypt_field at 1. rewrite Hn.
        unfold ret at 1.
        unfold bind at 1. unfold decrypt_field at 1. rewrite Hc.
        reflexivity. }
      rewrite E. simpl. apply skipn_length_app.
  - rewrite (anonymization_page_decrypt_fails env i w u p Hu Hr Ha Hd Hp Hn).
    simpl. apply skipn_length_app.
Qed.

Lemma decrypted_notices_update_row (env : Env) (sid : Z) (n c d : string)
      (p : Patient.t) :
  decrypted_notices env (update_row env sid n c d p)
  = decrypted_notices env p.
Proof.
  unfold decrypted_notices, update_row.
  now destruct (Patient.patient_id p =? sid).
Qed.

(** X14.  The update form does not re-encrypt.  For an admin, what the
    decrypt button prints for any selected patient is the same after an
    update as before it: the stored ciphertexts are those of the values at
    the time of the add or of the last bulk anonymization, not of the
    updated name and contact. *)
Theorem decrypt_unchanged_by_update (env : Env) (i1 i2 : Inputs) (w : World)
        (u : User.t) :
  user (session w) = Some u -> User.role u = "admin" ->
  patients (db w) <> [] ->
  upd_submit i1 = true ->
  apply_click i2 = false -> decrypt_click i2 = true ->
  printed_by (anonymization_page env i2)
             (world_after (update_patient_tab env i1 u) w)
  = printed_by (anonymization_page env i2) w.
Proof.
  intros Hu Hr Hne Hs Ha Hd.
  assert (Hstaff : str_in (User.role u) ["admin"; "receptionist"] = true)
    by now rewrite Hr.
  destruct (update_patient_tab_run env i1 u w Hu Hstaff Hne Hs)
    as [sel [d [_ [Hupd Hrun]]]].
  pose proof (update_patient_rows _ _ _ _ _ _ _ Hupd) as Hrows.
  destruct (selected_patient_found (patients (db w)) (dec_selected i2) Hne)
    as [q Hq].
  rewrite (anonymization_page_decrypt_prints env i2 w u q Hu Hr Ha Hd Hq).
  unfold world_after at 1. rewrite Hrun. cbn [snd].
  match type of Hrows with
  | _ = map (update_row env ?sid ?n ?c ?dg) _ =>
      match goal with
      | |- printed_by _ ?w1 = _ =>
          assert (Hps : patients (db w1) = patients d) by reflexivity;
          assert (Hu1 : user (session w1) = Some u) by exact Hu;
          rewrite (anonymization_page_decrypt_prints env i2 w1 u
                     (update_row env sid n c dg q) Hu1 Hr Ha Hd)
      end
  end.
  - f_equal. apply decrypted_notices_update_row.
  - rewrite Hps, Hrows.
    rewrite (map_ids_same _ _ (update_row_id env _ _ _ _)).
    rewrite (find_map_same_id _ _ _ (update_row_id env _ _ _ _)), Hq.
    reflexivity.
Qed.

Lemma decrypt_unchanged_by_update_witness :
  printed_by (anonymization_page demo_env click_decrypt)
             (world_after (update_patient_tab demo_env
                             (submit_update "Jane Q. Doe") admin_user)
                          (ward admin_user "Anonymization"))
  = [Info "**GDPR Article 4(5)**: Pseudonymisation with separate key management";
     Success "Decrypted Data:";
     Write "**Name:** Jane Doe";
     Write "**Contact:** 5551234567"].
Proof.
  rewrite (decrypt_unchanged_by_update demo_env (submit_update "Jane Q. Doe")
             click_decrypt (ward admin_user "Anonymization") admin_user
             eq_refl eq_refl);
    [reflexivity | discriminate | reflexivity | reflexivity | reflexivity].
Defined.

(** ** Uptime *)

(** X15.  The uptime the dashboard and the sidebar show is the minutes of
    the seconds-within-the-day of the session's age, not of its whole age:
    it is always between 0 and 1439, it is the same for two moments a whole
    number of days apart, and it is the age in whole minutes only while the
    session is younger than a day. *)
Theorem uptime_wraps_daily (start_time now : Z) :
  0 <= uptime_minutes start_time now < 1440
  /\ (forall days : Z,
         uptime_minutes start_time (now + days * 86400000000)
         = uptime_minutes start_time now)
  /\ (0 <= now - start_time < 86400000000 ->
      uptime_minutes start_time now = (now - start_time) / 60000000).
Proof.
  unfold uptime_minutes, timedelta_seconds. split; [| split].
  - pose proof (Z.mod_pos_bound ((now - start_time) / 1000000) 86400) as Hm.
    split.
    + apply Z.div_pos; lia.
    + apply Z.div_lt_upper_bound; lia.
  - intros days.
    replace (now + days * 86400000000 - start_time)
      with (now - start_time + (days * 86400) * 1000000) by lia.
    rewrite Z.div_add by lia. now rewrite Z.mod_add by lia.
  - intros Hage.
    rewrite Z.mod_small.
    + rewrite Z.div_div by lia. reflexivity.
    + split; [apply Z.div_pos; lia | apply Z.div_lt_upper_bound; lia].
Qed.

Lemma uptime_wraps_daily_witness :
  uptime_minutes 0 (90 * 60000000) = 90
  /\ uptime_minutes 0 (90 * 60000000 + 1 * 86400000000) = 90.
Proof.
  split.
  - rewrite (proj2 (proj2 (uptime_wraps_daily 0 (90 * 60000000)))).
    + reflexivity.
    + lia.
  - rewrite (proj1 (proj2 (uptime_wraps_daily 0 (90 * 60000000))) 1).
    reflexivity.
Defined.

(** ** Renders in a row *)

(** X16.  The dashboard is logged on every run that renders it, reruns
    included: from a logged-in session on the dashboard, any number of runs
    without a sidebar click leaves the session where it is and adds as many
    VIEW_DASHBOARD entries as there were runs. *)
Theorem dashboard_logged_every_run (env : Env) (l : list (N * Inputs))
        (w : World) (u : User.t) :
  user (session w) = Some u -> page (session w) = "Dashboard" ->
  Forall (fun r => nav_click (snd r) = None /\ logout_click (snd r) = false)
         l ->
  session (runs env l w) = session w
  /\ map Log.action (logs (db (runs env l w)))
     = map Log.action (logs (db w))
       ++ repeat "VIEW_DASHBOARD" (List.length l)
  /\ patients (db (runs env l w)) = patients (db w).
Proof.
  intros Hu Hp Hl. revert w Hu Hp.
  induction Hl as [|[dt i] l [Hn Ho] _ IH]; intros w Hu Hp; simpl in *.
  - repeat split. now rewrite app_nil_r.
  - assert (E : main env i (advance dt w)
                = dashboard_page (advance dt w)).
    { rewrite (main_routes env i (advance dt w) u Hu Hn Ho).
      unfold route, bind, get_session.
      change (session (advance dt w)) with (session w). now rewrite Hp. }
    unfold world_after. rewrite E.
    rewrite (dashboard_page_run (advance dt w) u Hu). cbn [snd].
    match goal with
    | |- context [runs env l ?w1] =>
        destruct (IH w1 Hu Hp) as [Hs [Ha Hpt]]
    end.
    rewrite Hs, Ha, Hpt. simpl. repeat split.
    rewrite map_app, <- app_assoc. reflexivity.
Qed.

Lemma dashboard_logged_every_run_witness :
  map Log.action
      (logs (db (runs demo_env [(1%N, idle); (1%N, idle); (1%N, idle)]
                      (ward doctor_user "Dashboard"))))
  = ["VIEW_DASHBOARD"; "VIEW_DASHBOARD"; "VIEW_DASHBOARD"].
Proof.
  rewrite (proj1 (proj2 (dashboard_logged_every_run demo_env
                           [(1%N, idle); (1%N, idle); (1%N, idle)]
                           (ward doctor_user "Dashboard") doctor_user
                           eq_refl eq_refl
                           ltac:(repeat constructor)))).
  reflexivity.
Defined.

(** ** Reruns *)

Lemma settles_bind {A B} (c : Script A) (k : A -> Script B) :
  settles c -> (forall a, settles (k a)) -> settles (bind c k).
Proof.
  intros Hc Hk w. specialize (Hc w). unfold outcome_of, bind in *.
  destruct (c w) as [[a | | e] w1]; simpl in *.
  - apply Hk.
  - congruence.
  - discriminate.
Qed.

Lemma settles_done {A} (c : Script A) :
  (forall w, exists a w', c w = (Done a, w')) -> settles c.
Proof.
  intros H w. destruct (H w) as [a [w' E]]. unfold outcome_of.
  rewrite E. discriminate.
Qed.

Lemma settles_log_user_action (action detail : string) :
  settles (log_user_action action detail).
Proof.
  intros w. unfold outcome_of.
  destruct (user (session w)) as [u |] eqn:Hu.
  - rewrite (log_user_action_logged action detail w u Hu). discriminate.
  - rewrite (log_user_action_anonymous action detail w Hu). discriminate.
Qed.

Ltac settles_leaf :=
  let w := fresh "w" in
  intros w; unfold outcome_of, current_user, get_all_patients,
    get_all_logs, next_with_id, decrypt_field, bind, query, get_session,
    notify, ret, raise;
  repeat match goal with
         | |- context [match ?x with _ => _ end] => destruct x
         end;
  simpl; discriminate.

Ltac settles_step :=
  lazymatch goal with
  | |- settles (bind _ _) => apply settles_bind; [| intros ?]
  | |- settles (log_user_action _ _) => apply settles_log_user_action
  | |- settles (if ?b then _ else _) => destruct b
  | |- settles (match ?x with _ => _ end) => destruct x
  | |- settles (let _ := _ in _) => cbv zeta
  | |- settles _ => settles_leaf
  end.

Lemma settles_main (env : Env) (i : Inputs) :
  nothing_pressed i -> settles (main env i).
Proof.
  intros [Hn [Hl [Hs [Ha [Hu Hp]]]]].
  unfold main. apply settles_bind; [settles_leaf |]. intros s.
  destruct (user s) as [u |].
  - apply settles_bind.
    { rewrite Hn. intros w. unfold outcome_of. rewrite nav_buttons_idle.
      discriminate. }
    intros _. rewrite Hl. apply settles_bind; [settles_leaf |]. intros _.
    unfold route. apply settles_bind; [settles_leaf |]. intros s'. cbv zeta.
    destruct (page s' =? "Dashboard")%string.
    { unfold dashboard_page. repeat settles_step. }
    destruct (page s' =? "Patients")%string.
    { unfold patients_page, view_patients_tab, add_patient_tab,
        update_patient_tab.
      rewrite Ha, Hu. repeat settles_step. }
    destruct (page s' =? "Anonymization")%string.
    { unfold anonymization_page. rewrite Hp. repeat settles_step. }
    destruct (page s' =? "Audit Logs")%string.
    { unfold audit_logs_page. repeat settles_step. }
    settles_leaf.
  - unfold login_page. rewrite Hs. settles_leaf.
Qed.

(** X17.  A rerun settles.  A run in which no button is pressed and no
    form is submitted never asks for a rerun, and the run that follows a
    rerun is such a run; so every interaction ends after at most two runs,
    normally or, from the first run only, with the decryption error. *)
Theorem rerun_settles (env : Env) (i : Inputs) (w : World) :
  (nothing_pressed i -> outcome_of (main env i) w <> Rerun)
  /\ (outcome_of (interaction env i) w = Done tt
      \/ (outcome_of (interaction env i) w = Raised DecryptionError
          /\ outcome_of (main env i) w = Raised DecryptionError)).
Proof.
  split; [intros Hi; now apply settles_main |].
  assert (Hrel : nothing_pressed (released i)) by now repeat split.
  unfold outcome_of, interaction.
  destruct (main_cases env i w) as [o [w1 [Hrun [_ [_ Hc]]]]].
  rewrite Hrun.
  assert (Hsecond : fst (main env (released i) w1) = Done tt).
  { pose proof (settles_main env (released i) Hrel w1) as Hs.
    unfold outcome_of in Hs.
    destruct (main_cases env (released i) w1) as [o2 [w2 [Hrun2 [_ [_ Hc2]]]]].
    rewrite Hrun2 in *. cbn [fst] in *.
    destruct Hc2 as [[_ [Hd | [Hd | [_ [Hk _]]]]] | [Hd _]];
      try congruence. discriminate Hk. }
  destruct Hc as [[_ [-> | [-> | [-> _]]]] | [-> _]]; cbn [fst].
  - now left.
  - left. exact Hsecond.
  - right. now split.
  - left. exact Hsecond.
Qed.

Lemma rerun_settles_witness :
  outcome_of (main demo_env idle) (ward admin_user "Patients") <> Rerun.
Proof.
  apply (proj1 (rerun_settles demo_env idle (ward admin_user "Patients"))).
  now repeat split.
Defined.
